(** * The yagr tooltip plugin: value resolver, row builder and interaction
      state machine

    A shallow embedding of [YagrTooltipPlugin] (tooltip.ts).  The closure
    state of one plugin instance ([state], [tOverlay], [renderTooltipCloses],
    the listeners it registers) is one record, [Tooltip]; every inner
    function of the plugin is a function on that record.

    Conventions.
    - Samples of a data series are [number | null | string]; a finite number
      is represented by an integer, [NaN] is kept apart because [===]
      treats it specially.  Pixel coordinates are integers.
    - [opts.onStateChange] is an observer: each call is recorded, with the
      action tag and the state it was handed, in [log].
    - [opts.render] and [placement] are external; a call of the render
      closure is recorded in [renders] with the arguments it passes.
    - The helpers imported from utils/common ([findDataIdx], [findInRange],
      [findSticky]) and the [SnapToValue] enumeration are parameters.
    - [u.data] is an array whenever a hook runs; [setCursor] reads arrays
      as its elements, [setData] is the hook that checks them.
    - The state machine sees the renderer through [opts.render ===
      renderTooltip] only; the default renderer [renderTooltip], the default
      value formatter and [checkFocus], which touch no field of [state], are
      functions of their own, as is the plot lines plugin ([PlotLines]).
    - Left out: the [setSize] hook and the height fixed on the row list
      when pinning. *)

From Stdlib Require Import ZArith List String Bool Lia DecimalString.
Import ListNotations.
Local Open Scope Z_scope.

(** ** JavaScript values held by data arrays *)

Inductive jsval : Type :=
| VUndefined
| VNull
| VNum (n : Z)
| VNaN
| VStr (s : string).

(** [a === b] *)
Definition strict_eq (a b : jsval) : bool :=
  match a, b with
  | VUndefined, VUndefined => true
  | VNull, VNull => true
  | VNum x, VNum y => x =? y
  | VStr s, VStr t => String.eqb s t
  | _, _ => false
  end.

(** [typeof v === 'string'] *)
Definition is_string (v : jsval) : bool :=
  match v with VStr _ => true | _ => false end.

(** [typeof v === 'number'] *)
Definition is_number (v : jsval) : bool :=
  match v with VNum _ | VNaN => true | _ => false end.

(** [a[i]]: reading outside the array gives [undefined]. *)
Definition index (a : list jsval) (i : Z) : jsval :=
  if i <? 0 then VUndefined else nth (Z.to_nat i) a VUndefined.

(** A default parameter [p = d] takes [d] when the argument is [undefined]. *)
Definition default_param (arg d : jsval) : jsval :=
  match arg with VUndefined => d | _ => arg end.

(** The number that [sum += (v || 0)] adds, for [v : number | null]. *)
Definition or_zero (v : jsval) : Z :=
  match v with VNum n => n | _ => 0 end.

(** Completion of a handler: it returns, or an exception leaves it. *)
Inductive completion : Type :=
| Returns
| Throws (message : string).

Inductive result (A : Type) : Type :=
| Ok (a : A)
| Raise (message : string).
Arguments Ok {A} a.
Arguments Raise {A} message.

(** ** Data model *)

Module Action.
(** [TooltipAction] *)
Inductive t : Type :=
| init | mount | render | show | hide | pin | unpin | destroy.
End Action.

Module State.
(** [TooltipState] *)
Record t : Type := mk {
  pinned : bool;
  clickStartedX : option Z;
  visible : bool;
  mounted : bool
}.
End State.

Module Series.
(** The fields of a uPlot series the tooltip reads.  [dollar_c] is [$c],
    the display-source array. *)
Record t : Type := mk {
  id : string;
  name : string;
  color : string;
  show : bool;
  showInTooltip : option bool;
  dollar_c : option (list jsval);
  normalizedData : option (list jsval);
  formatter : option (jsval -> string);
  precision : option Z
}.
End Series.

Module Row.
(** [TooltipRow]; an absent [active] is [false]. *)
Record t : Type := mk {
  name : string;
  originalValue : jsval;
  value : string;
  y : jsval;
  color : string;
  active : bool;
  normalized : option jsval
}.

Definition set_active (r : t) : t :=
  mk (name r) (originalValue r) (value r) (y r) (color r) true (normalized r).
End Row.

Module Tracking.
(** [opts.tracking]: the two members of [TrackingOptions] the plugin tests
    for, and anything else. *)
Inductive t : Type := Sticky | Area | Other.
End Tracking.

Module Opts.
(** [TooltipOptions], after the defaults were merged in.
    [render_is_default] is [opts.render === renderTooltip];
    [onStateChange] tells whether a callback is configured. *)
Record t : Type := mk {
  tracking : Tracking.t;
  highlightLines : bool;
  total : bool;
  render_is_default : bool;
  pinable : bool;
  value : jsval -> option Z -> string;
  sort : option (Row.t -> Row.t -> Z);
  hideNoData : bool;
  onStateChange : bool
}.
End Opts.

(** What the closure assigned to [renderTooltipCloses] captures. *)
Record RenderClosure : Type := mkClosure {
  c_rows : list Row.t;
  c_lines : Z;
  c_x : jsval;
  c_sum : Z;
  c_anchor : Z * Z
}.

(** One execution of the render closure: the arguments handed to
    [opts.render] and to [placement]. *)
Record RenderCall : Type := mkCall {
  rc_rows : list Row.t;
  rc_lines : Z;
  rc_x : jsval;
  rc_pinned : bool;
  rc_sum : option string;
  rc_anchor : Z * Z
}.

Inductive Display : Type := DisplayNone | DisplayBlock.

(** The closure state of one plugin instance. *)
Record Tooltip : Type := mkTooltip {
  state : State.t;
  display : Display;                        (* tOverlay.style.display *)
  pinnedClass : bool;                       (* yagr-tooltip_pinned on tOverlay *)
  attached : bool;                          (* tOverlay is in the document *)
  pointsHolders : nat;                      (* .yagr-points-holder children of over *)
  documentListeners : bool;                 (* checkFocus, detectClickOutside *)
  overListeners : bool;                     (* the four listeners on over *)
  renderTooltipCloses : option RenderClosure; (* None is the initial () => {} *)
  renders : list RenderCall;
  log : list (Action.t * State.t)
}.

Definition with_state (f : State.t -> State.t) (w : Tooltip) : Tooltip :=
  mkTooltip (f (state w)) (display w) (pinnedClass w) (attached w)
    (pointsHolders w) (documentListeners w) (overListeners w)
    (renderTooltipCloses w) (renders w) (log w).

Definition with_display (d : Display) (w : Tooltip) : Tooltip :=
  mkTooltip (state w) d (pinnedClass w) (attached w)
    (pointsHolders w) (documentListeners w) (overListeners w)
    (renderTooltipCloses w) (renders w) (log w).

Definition with_pin_dom (cls : bool) (holders : nat) (listeners : bool)
    (w : Tooltip) : Tooltip :=
  mkTooltip (state w) (display w) cls (attached w)
    holders listeners (overListeners w)
    (renderTooltipCloses w) (renders w) (log w).

Definition with_closure (c : RenderClosure) (w : Tooltip) : Tooltip :=
  mkTooltip (state w) (display w) (pinnedClass w) (attached w)
    (pointsHolders w) (documentListeners w) (overListeners w)
    (Some c) (renders w) (log w).

Definition with_render (r : RenderCall) (w : Tooltip) : Tooltip :=
  mkTooltip (state w) (display w) (pinnedClass w) (attached w)
    (pointsHolders w) (documentListeners w) (overListeners w)
    (renderTooltipCloses w) (renders w ++ [r]) (log w).

Definition with_log (e : Action.t * State.t) (w : Tooltip) : Tooltip :=
  mkTooltip (state w) (display w) (pinnedClass w) (attached w)
    (pointsHolders w) (documentListeners w) (overListeners w)
    (renderTooltipCloses w) (renders w) (log w ++ [e]).

Definition removed (w : Tooltip) : Tooltip :=
  mkTooltip (state w) (display w) (pinnedClass w) false
    (pointsHolders w) (documentListeners w) false
    (renderTooltipCloses w) (renders w) (log w).

Definition set_pinned (b : bool) (s : State.t) : State.t :=
  State.mk b (State.clickStartedX s) (State.visible s) (State.mounted s).
Definition set_clickStartedX (x : option Z) (s : State.t) : State.t :=
  State.mk (State.pinned s) x (State.visible s) (State.mounted s).
Definition set_visible (b : bool) (s : State.t) : State.t :=
  State.mk (State.pinned s) (State.clickStartedX s) b (State.mounted s).
Definition set_mounted (b : bool) (s : State.t) : State.t :=
  State.mk (State.pinned s) (State.clickStartedX s) (State.visible s) b.

(** [w'] has the [pinned] and [mounted] flags, the render calls and the
    pending closure of [w]. *)
Definition same_frame (w w' : Tooltip) : Prop :=
  State.pinned (state w') = State.pinned (state w) /\
  State.mounted (state w') = State.mounted (state w) /\
  renders w' = renders w /\
  renderTooltipCloses w' = renderTooltipCloses w.

(** ** The interaction state machine *)

Section Machine.
Variable opts : Opts.t.

(** [emit]: the callback, when there is one, sees the state as it is now. *)
Definition emit (action : Action.t) (w : Tooltip) : Tooltip :=
  if Opts.onStateChange opts then with_log (action, state w) w else w.

(** The plugin right after construction and the [init] hook: [state] as
    initialised, the overlay appended to the body and hidden, [init] and
    [mount] emitted, the four listeners on [over] registered. *)
Definition created : Tooltip :=
  let state0 := State.mk false None false true in
  let w := mkTooltip state0 DisplayNone false false 0%nat false false None [] [] in
  let w := emit Action.init w in
  let w := mkTooltip (state w) (display w) (pinnedClass w) true
             (pointsHolders w) (documentListeners w) true
             (renderTooltipCloses w) (renders w) (log w) in
  let w := with_state (set_mounted true) w in
  emit Action.mount w.

Definition show (w : Tooltip) : Tooltip :=
  let shouldEmit := negb (State.visible (state w)) in
  let w := with_state (set_visible true) w in
  let w := with_display DisplayBlock w in
  if shouldEmit then emit Action.show w else w.

Definition hide (w : Tooltip) : Tooltip :=
  let shouldEmit := State.visible (state w) in
  let w := with_state (set_visible false) w in
  let w := with_display DisplayNone w in
  let w := emit Action.hide w in
  if shouldEmit then emit Action.show w else w.

Definition onMouseDown (clientX : Z) (w : Tooltip) : Tooltip :=
  with_state (set_clickStartedX (Some clientX)) w.

Definition pin (pinState : bool) (w : Tooltip) : Tooltip :=
  let w := with_state (set_pinned pinState) w in
  let w :=
    if pinState then
      with_pin_dom true (S (pointsHolders w))
        (if Opts.render_is_default opts then true else documentListeners w) w
    else
      with_pin_dom false (Nat.pred (pointsHolders w))
        (if Opts.render_is_default opts then false else documentListeners w) w in
  emit (if pinState then Action.pin else Action.unpin) w.

(** A click target as [detectClickOutside] inspects it. *)
Record ClickTarget : Type := mkTarget {
  isElement : bool;
  insideTooltip : bool;
  insideOver : bool
}.

Definition detectClickOutside (target : ClickTarget) (w : Tooltip) : Tooltip :=
  if isElement target then
    if negb (insideTooltip target) && negb (insideOver target)
    then hide (pin false w)
    else w
  else w.

(** The arguments of one run of the closure [c]: [pinned] is read from
    [state] when the closure runs. *)
Definition renderArgs (c : RenderClosure) (pinned : bool) : RenderCall :=
  mkCall (c_rows c) (c_lines c) (c_x c) pinned
    (if Opts.total opts
     then Some (Opts.value opts (VNum (c_sum c)) None) else None)
    (c_anchor c).

(** Calling [renderTooltipCloses]. *)
Definition callRenderTooltipCloses (w : Tooltip) : Tooltip :=
  match renderTooltipCloses w with
  | None => w
  | Some c =>
      emit Action.render (with_render (renderArgs c (State.pinned (state w))) w)
  end.

(** [state.clickStartedX && state.clickStartedX === event.clientX] *)
Definition isClick (clickStartedX : option Z) (clientX : Z) : bool :=
  match clickStartedX with
  | None => false
  | Some x0 => negb (x0 =? 0) && (x0 =? clientX)
  end.

Definition onMouseUp (clientX : Z) (w : Tooltip) : Tooltip :=
  if Opts.pinable opts && isClick (State.clickStartedX (state w)) clientX
  then callRenderTooltipCloses (show (pin (negb (State.pinned (state w))) w))
  else w.

Definition onMouseEnter (w : Tooltip) : Tooltip := show w.

Definition onMouseLeave (w : Tooltip) : Tooltip :=
  if negb (State.pinned (state w)) then hide w else w.

Definition destroy (w : Tooltip) : Tooltip :=
  let w := removed w in
  let w := with_state (set_mounted false) w in
  emit Action.destroy w.

End Machine.

(** ** Value resolver, row builder and the [setCursor] hook *)

(** [cursor.snapToValues]: [false], absent, or a member of [SnapToValue]. *)
Inductive SnapOption (SnapToValue : Type) : Type :=
| SnapFalse
| SnapUndefined
| Snap (policy : SnapToValue).
Arguments SnapFalse {SnapToValue}.
Arguments SnapUndefined {SnapToValue}.
Arguments Snap {SnapToValue} policy.

(** [u.cursor]; an [idx] of [null] or [undefined] and a [top] of
    [undefined] are [None]. *)
Record Cursor : Type := mkCursor {
  left : Z;
  top : option Z;
  idx : option Z
}.

(** What [setCursor] reads from the chart and the document.
    [cursorValue] is [Number(u.posToVal(top, 'y').toFixed(2))]. *)
Record UPlot : Type := mkUPlot {
  cursor : Cursor;
  data : option (list (list jsval));
  series : list Series.t;
  isChartInViewPort : bool;
  cursorValue : Z;
  bboxLeft : Z;
  bboxTop : Z;
  bodyClientWidth : Z;
  overlayClientWidth : Z
}.

(** The local variables of the row loop. *)
Record Locals : Type := mkLocals {
  rows : list Row.t;
  sum : Z;
  i : nat;
  ys : list jsval;
  rowYs : list jsval
}.

(** No row carries the [active] flag. *)
Definition inactive (rows : list Row.t) : Prop :=
  Forall (fun r => Row.active r = false) rows.

(** Invariants of the loop: every row is pushed without an [active] field,
    [rowYs] grows with [rows], and at most one row is pushed per step of
    [i]. *)
Definition loop_invariant (l : Locals) : Prop :=
  inactive (rows l) /\
  List.length (rowYs l) = List.length (rows l) /\
  (List.length (rows l) < i l)%nat.

Definition ANCHOR_Y_OFFSET : Z := 24.

(** [rows.sort(cmp)], taken as a stable insertion sort: [a] stays before
    [b] unless [cmp a b > 0]. *)
Fixpoint sort_insert (cmp : Row.t -> Row.t -> Z) (x : Row.t) (l : list Row.t)
    : list Row.t :=
  match l with
  | [] => [x]
  | y :: l' => if cmp y x >? 0 then x :: l else y :: sort_insert cmp x l'
  end.

Definition array_sort (cmp : Row.t -> Row.t -> Z) (l : list Row.t) : list Row.t :=
  fold_left (fun sorted x => sort_insert cmp x sorted) l [].

(** [a[k] = f(a[k])] for [k] inside the array. *)
Fixpoint update_at (k : nat) (f : Row.t -> Row.t) (l : list Row.t) : list Row.t :=
  match l, k with
  | [], _ => []
  | r :: l', O => f r :: l'
  | r :: l', S k' => r :: update_at k' f l'
  end.

(** ** The [setData] hook *)

(** An element of [u.data] as [setData] may receive it: an array, or
    anything else. *)
Inductive datum : Type :=
| DArray (elements : list jsval)
| DOther (v : jsval).

(** [Array.isArray] *)
Definition isArray (d : datum) : bool :=
  match d with DArray _ => true | DOther _ => false end.

Definition setData (data : list datum) : completion :=
  if negb (forallb isArray data)
  then Throws "Tooltip plugin applied to unconvient datalines: expected number[][]"
  else Returns.

Section Cursor.
Variable SnapToValue : Type.
Variable Closest : SnapToValue.
(** Truthiness of a member of the enumeration, for [snapToValues || Closest]. *)
Variable snap_truthy : SnapToValue -> bool.
(** utils/common.  [findDataIdx source serie idx snapTo stripValue], with
    [snapTo = None] for [false]; [findInRange] and [findSticky] return an
    index or [null]. *)
Variable findDataIdx :
  list jsval -> Series.t -> Z -> option SnapToValue -> jsval -> Z.
Variable findInRange : list jsval -> Z -> bool -> option nat.
Variable findSticky : list jsval -> Z -> option nat.

Variable opts : Opts.t.
(** [yagr.config.cursor.snapToValues] and
    [yagr.config.settings.interpolationValue]. *)
Variable snapToValues : SnapOption SnapToValue.
Variable interpolationValue : jsval.

Definition findValue (snapToValues : SnapOption SnapToValue)
    (data : list jsval) (serie : Series.t) (idx : Z) (stripValue : jsval)
    : jsval :=
  let stripValue := default_param stripValue VNull in
  let source :=
    match Series.dollar_c serie with Some c => c | None => data end in
  let snapTo :=
    match snapToValues with
    | SnapFalse => None
    | SnapUndefined => Some Closest
    | Snap p => if snap_truthy p then Some p else Some Closest
    end in
  let value := index source idx in
  if strict_eq value stripValue
  then index source (findDataIdx source serie idx snapTo stripValue)
  else value.

(** The body of [while (i < u.series.length)], over the series from
    [u.series[i]] on. *)
Fixpoint rowLoop (data : list (list jsval)) (idx : Z) (rest : list Series.t)
    (l : Locals) : result Locals :=
  match rest with
  | [] => Ok l
  | serie :: rest' =>
      if negb (Series.show serie)
      then rowLoop data idx rest' (mkLocals (rows l) (sum l) (S (i l)) (ys l) (rowYs l))
      else
        match nth_error data (i l) with
        | None => Raise "TypeError: u.data[i] is undefined"
        | Some data_i =>
            let stripValue := interpolationValue in
            let value := findValue snapToValues data_i serie idx stripValue in
            let dValue := value in
            let value := if is_string value then VNull else value in
            let sum' := if Opts.total opts then sum l + or_zero value else sum l in
            let realY := index data_i idx in
            let yValue :=
              match Series.dollar_c serie with
              | Some c => if strict_eq (index c idx) stripValue then value else realY
              | None => realY
              end in
            let ys' := ys l ++ [yValue] in
            let i' := S (i l) in
            if (strict_eq value VNull && Opts.hideNoData opts)
               || match Series.showInTooltip serie with
                  | Some false => true
                  | _ => false
                  end
            then rowLoop data idx rest' (mkLocals (rows l) sum' i' ys' (rowYs l))
            else
              let displayValue :=
                match Series.formatter serie with
                | Some f => f dValue
                | None => Opts.value opts dValue (Series.precision serie)
                end in
              let rowData :=
                Row.mk (Series.name serie) value displayValue yValue
                  (Series.color serie) false
                  (match Series.normalizedData serie with
                   | Some nd => Some (index nd idx)
                   | None => None
                   end) in
              rowLoop data idx rest'
                (mkLocals (rows l ++ [rowData]) sum' i' ys' (rowYs l ++ [realY]))
        end
  end.

(** The loop from [i = 1] with empty [rows], [ys], [rowYs] and [sum = 0]. *)
Definition buildRows (data : list (list jsval)) (idx : Z)
    (series : list Series.t) : result Locals :=
  rowLoop data idx (skipn 1 series) (mkLocals [] 0 1%nat [] []).

(** [if (opts.highlightLines) {...}]: [rows[activeIndex].active = true]
    throws when [rows[activeIndex]] is [undefined]. *)
Definition highlight (cursorValue : Z) (l : Locals) : result (list Row.t) :=
  if Opts.highlightLines opts then
    let activeIndex :=
      match Opts.tracking opts with
      | Tracking.Area => findInRange (rowYs l) cursorValue false
      | Tracking.Sticky => findSticky (rowYs l) cursorValue
      | Tracking.Other => Some (i l - 1)%nat
      end in
    match activeIndex with
    | None => Ok (rows l)
    | Some k =>
        if (k <? List.length (rows l))%nat
        then Ok (update_at k Row.set_active (rows l))
        else Raise "TypeError: rows[activeIndex] is undefined"
    end
  else Ok (rows l).

Definition availableLines (series : list Series.t) : Z :=
  Z.of_nat (List.length (filter
    (fun s => match Series.showInTooltip s with Some false => false | _ => true end)
    series)) - 1.

Definition anchor (u : UPlot) (top : Z) : Z * Z :=
  let anchor_left := left (cursor u) + bboxLeft u in
  let anchor_top := bboxTop u + top - ANCHOR_Y_OFFSET in
  if bodyClientWidth u - anchor_left <? overlayClientWidth u - ANCHOR_Y_OFFSET
  then (anchor_left - ANCHOR_Y_OFFSET, anchor_top)
  else (anchor_left + ANCHOR_Y_OFFSET, anchor_top).

Definition setCursor (u : UPlot) (w : Tooltip) : Tooltip * completion :=
  let w :=
    if ((left (cursor u) <? 0)
        || match top (cursor u) with Some t => t <? 0 | None => false end)
       && negb (State.pinned (state w))
    then hide opts w else w in
  match data u, idx (cursor u), top (cursor u) with
  | Some data, Some idx, Some top =>
      if negb (isChartInViewPort u) then (w, Returns) else
      match nth_error data 0 with
      | None => (w, Throws "TypeError: data[0] is undefined")
      | Some data_0 =>
          let x := index data_0 idx in
          match buildRows data idx (series u) with
          | Raise m => (w, Throws m)
          | Ok l =>
              match rows l with
              | [] => (onMouseLeave opts w, Returns)
              | _ :: _ =>
                  let w := onMouseEnter opts w in
                  match highlight (cursorValue u) l with
                  | Raise m => (w, Throws m)
                  | Ok rows =>
                      let rows :=
                        match Opts.sort opts with
                        | Some cmp => array_sort cmp rows
                        | None => rows
                        end in
                      let w :=
                        with_closure
                          (mkClosure rows (availableLines (series u)) x (sum l)
                             (anchor u top)) w in
                      if State.pinned (state w) then (w, Returns)
                      else (callRenderTooltipCloses opts w, Returns)
                  end
              end
          end
      end
  | _, _, _ => (w, Returns)
  end.

(** *** Reading aids for the statements below *)

(** The closure a cursor update assigns to [renderTooltipCloses], when it
    gets as far as the assignment. *)
Definition scheduled (u : UPlot) : option RenderClosure :=
  match data u, idx (cursor u), top (cursor u) with
  | Some data, Some idx, Some top =>
      if negb (isChartInViewPort u) then None else
      match nth_error data 0, buildRows data idx (series u) with
      | Some data_0, Ok l =>
          match rows l, highlight (cursorValue u) l with
          | _ :: _, Ok rows =>
              Some (mkClosure
                      (match Opts.sort opts with
                       | Some cmp => array_sort cmp rows
                       | None => rows
                       end)
                      (availableLines (series u)) (index data_0 idx) (sum l)
                      (anchor u top))
          | _, _ => None
          end
      | _, _ => None
      end
  | _, _, _ => None
  end.

(** The row loop's [value], [realY] and [yValue] for one series and its
    plotted array, and its test for leaving the series out of [rows]. *)
Definition resolved (idx : Z) (sd : Series.t * list jsval) : jsval :=
  let value := findValue snapToValues (snd sd) (fst sd) idx interpolationValue in
  if is_string value then VNull else value.

Definition realY (idx : Z) (sd : Series.t * list jsval) : jsval :=
  index (snd sd) idx.

Definition yValue (idx : Z) (sd : Series.t * list jsval) : jsval :=
  match Series.dollar_c (fst sd) with
  | Some c =>
      if strict_eq (index c idx) interpolationValue
      then resolved idx sd else realY idx sd
  | None => realY idx sd
  end.

Definition skipped (idx : Z) (sd : Series.t * list jsval) : bool :=
  (strict_eq (resolved idx sd) VNull && Opts.hideNoData opts)
  || match Series.showInTooltip (fst sd) with
     | Some false => true
     | _ => false
     end.

(** The series the loop does not pass over, each with its plotted array. *)
Definition shownSeries (data : list (list jsval)) (series : list Series.t)
    : list (Series.t * list jsval) :=
  filter (fun sd => Series.show (fst sd))
    (combine (skipn 1 series) (skipn 1 data)).

(** The guarded [hide()] that opens [setCursor]. *)
Definition offPlotHide (u : UPlot) (w : Tooltip) : Tooltip :=
  if ((left (cursor u) <? 0)
      || match top (cursor u) with Some t => t <? 0 | None => false end)
     && negb (State.pinned (state w))
  then hide opts w else w.


(** ** Events *)

(** What can reach the plugin once it is set up: the [actions] table handed
    to the callback, the listeners on [over] and on the document, and the
    hooks called by the chart. *)
Inductive Event : Type :=
| CallShow
| CallHide
| CallPin (pinState : bool)
| MouseDown (clientX : Z)
| MouseUp (clientX : Z)
| MouseEnter
| MouseLeave
| DocumentMouseDown (target : ClickTarget)
| SetData (data : list datum)
| SetCursor (u : UPlot)
| Destroy.

(** A listener runs only while it is registered. *)
Definition step (e : Event) (w : Tooltip) : Tooltip * completion :=
  match e with
  | CallShow => (show opts w, Returns)
  | CallHide => (hide opts w, Returns)
  | CallPin pinState => (pin opts pinState w, Returns)
  | MouseDown clientX =>
      (if overListeners w then onMouseDown clientX w else w, Returns)
  | MouseUp clientX =>
      (if overListeners w then onMouseUp opts clientX w else w, Returns)
  | MouseEnter => (if overListeners w then onMouseEnter opts w else w, Returns)
  | MouseLeave => (if overListeners w then onMouseLeave opts w else w, Returns)
  | DocumentMouseDown target =>
      (if documentListeners w then detectClickOutside opts target w else w,
       Returns)
  | SetData data => (w, setData data)
  | SetCursor u => setCursor u w
  | Destroy => (destroy opts w, Returns)
  end.

(** The events are handled one after the other; an exception ends its
    handler only. *)
Fixpoint run (events : list Event) (w : Tooltip) : Tooltip :=
  match events with
  | [] => w
  | e :: events' => run events' (fst (step e w))
  end.

End Cursor.

(** ** Sample configurations and charts

    Concrete instances of the parameters, used to evaluate the plugin. *)

(** Modelled from the spec: the [SnapToValue] enumeration is declared in
    types.ts, which is not part of the sources; section 3 lists the policies
    [Closest] and [None]. *)
Inductive SnapPolicy : Type := SnapClosest | SnapNone.

Definition is_gap (stripValue v : jsval) : bool := strict_eq v stripValue.

(** Modelled from the spec: [findDataIdx] lives in utils/common, which is
    not part of the sources.  Section 4.1: with snapping disabled the index
    is kept; otherwise the nearest index whose value is not the gap-marker,
    searching outward in both directions (the left neighbour first), and the
    index itself when the series has none. *)
Fixpoint nearest (source : list jsval) (idx : Z) (stripValue : jsval)
    (d : Z) (fuel : nat) : Z :=
  match fuel with
  | O => idx
  | S fuel' =>
      if (0 <=? idx - d) && negb (is_gap stripValue (index source (idx - d)))
      then idx - d
      else if (idx + d <? Z.of_nat (List.length source))
              && negb (is_gap stripValue (index source (idx + d)))
      then idx + d
      else nearest source idx stripValue (d + 1) fuel'
  end.

Definition sample_findDataIdx (source : list jsval) (serie : Series.t)
    (idx : Z) (snapTo : option SnapPolicy) (stripValue : jsval) : Z :=
  match snapTo with
  | None | Some SnapNone => idx
  | Some SnapClosest => nearest source idx stripValue 1 (List.length source)
  end.

(** [|v - c|] for a number, nothing for anything else. *)
Definition distance (c : Z) (v : jsval) : option Z :=
  match v with VNum n => Some (Z.abs (n - c)) | _ => None end.

(** Modelled from the spec: [findSticky] lives in utils/common.  Section
    4.2: the row whose y-equivalent is closest to the cursor value, the
    lowest index on a tie. *)
Fixpoint closest (ys : list jsval) (c : Z) (k : nat) (best : option (nat * Z))
    : option nat :=
  match ys with
  | [] => option_map fst best
  | v :: ys' =>
      let best' :=
        match distance c v, best with
        | Some d, Some (_, d0) => if d <? d0 then Some (k, d) else best
        | Some d, None => Some (k, d)
        | None, _ => best
        end in
      closest ys' c (S k) best'
  end.

Definition sample_findSticky (ys : list jsval) (c : Z) : option nat :=
  closest ys c 0%nat None.

(** Modelled from the spec: [findInRange] lives in utils/common.  Section
    4.2: ascending scan over the bands delimited by a row's value and the
    next row's value; the first band containing the cursor value wins. *)
Fixpoint band (ys : list jsval) (c : Z) (k : nat) : option nat :=
  match ys with
  | VNum a :: (VNum b :: _) as ys' =>
      if (a <=? c) && (c <? b) then Some k else band ys' c (S k)
  | _ :: ys' => band ys' c (S k)
  | [] => None
  end.

Definition sample_findInRange (ys : list jsval) (c : Z) (stick : bool)
    : option nat :=
  band ys c 0%nat.

(** A value formatter in the shape of [opts.value]. *)
Definition sample_value (v : jsval) (precision : option Z) : string :=
  match v with
  | VNull => "-"
  | VStr s => s
  | VNum n => NilZero.string_of_int (Z.to_int n)
  | VNaN => "NaN"
  | VUndefined => "undefined"
  end.

(** The documented defaults, with and without a state-change callback. *)
Definition defaults (onStateChange : bool) : Opts.t :=
  Opts.mk Tracking.Sticky true true true true sample_value None false
    onStateChange.

Definition with_tracking (t : Tracking.t) (o : Opts.t) : Opts.t :=
  Opts.mk t (Opts.highlightLines o) (Opts.total o) (Opts.render_is_default o)
    (Opts.pinable o) (Opts.value o) (Opts.sort o) (Opts.hideNoData o)
    (Opts.onStateChange o).

Definition with_highlightLines (b : bool) (o : Opts.t) : Opts.t :=
  Opts.mk (Opts.tracking o) b (Opts.total o) (Opts.render_is_default o)
    (Opts.pinable o) (Opts.value o) (Opts.sort o) (Opts.hideNoData o)
    (Opts.onStateChange o).

Definition with_hideNoData (b : bool) (o : Opts.t) : Opts.t :=
  Opts.mk (Opts.tracking o) (Opts.highlightLines o) (Opts.total o)
    (Opts.render_is_default o) (Opts.pinable o) (Opts.value o) (Opts.sort o) b
    (Opts.onStateChange o).

Definition line (name : string) (show : bool) (showInTooltip : option bool)
    : Series.t :=
  Series.mk name name "#000" show showInTooltip None None None None.

(** A chart of three points with the x series and two lines, the cursor on
    the second point. *)
Definition chart (series : list Series.t) (data : list (list jsval)) : UPlot :=
  mkUPlot (mkCursor 40 (Some 30) (Some 1)) (Some data) series true 12
    100 200 1000 150.

Definition xs : list jsval := [VNum 0; VNum 1; VNum 2].

Definition two_lines : UPlot :=
  chart [line "x" true None; line "a" true None; line "b" true None]
        [xs; [VNum 5; VNum 7; VNum 9]; [VNum 1; VNum 3; VNum 4]].

(** The same chart with line [a] opting out of the tooltip. *)
Definition one_opted_out : UPlot :=
  chart [line "x" true None; line "a" true (Some false); line "b" true None]
        [xs; [VNum 5; VNum 7; VNum 9]; [VNum 1; VNum 3; VNum 4]].

(** The same chart with both lines switched off. *)
Definition all_invisible : UPlot :=
  chart [line "x" true None; line "a" false None; line "b" false None]
        [xs; [VNum 5; VNum 7; VNum 9]; [VNum 1; VNum 3; VNum 4]].

(** [setCursor] with the sample helpers, default snapping and [null] as the
    gap-marker. *)
Definition sample_setCursor (o : Opts.t) : UPlot -> Tooltip -> Tooltip * completion :=
  setCursor SnapPolicy SnapClosest (fun _ => true)
    sample_findDataIdx sample_findInRange sample_findSticky
    o SnapUndefined VNull.

Definition sample_buildRows (o : Opts.t) (u : UPlot) : result Locals :=
  buildRows SnapPolicy SnapClosest (fun _ => true) sample_findDataIdx
    o SnapUndefined VNull
    (match data u with Some d => d | None => [] end) 1 (series u).

Definition sample_step (o : Opts.t) : Event -> Tooltip -> Tooltip * completion :=
  step SnapPolicy SnapClosest (fun _ => true)
    sample_findDataIdx sample_findInRange sample_findSticky
    o SnapUndefined VNull.

Definition sample_run (o : Opts.t) : list Event -> Tooltip -> Tooltip :=
  run SnapPolicy SnapClosest (fun _ => true)
    sample_findDataIdx sample_findInRange sample_findSticky
    o SnapUndefined VNull.

(** Tracking disabled and highlighting off. *)
Definition untracked : Opts.t :=
  with_highlightLines false (with_tracking Tracking.Other (defaults true)).

(** The tooltip after the pointer entered the chart, with a callback. *)
Definition shown : Tooltip := show (defaults true) (created (defaults true)).

(** The tooltip pinned by a click at x = 5 over [two_lines]. *)
Definition pinned_tooltip : Tooltip :=
  sample_run (defaults true)
    [SetCursor two_lines; MouseDown 5; MouseUp 5] (created (defaults true)).

(** The shape section 7 asks of [setData]'s input: an array of arrays of
    numbers. *)
Definition numeric_arrays (data : list datum) : bool :=
  forallb (fun d => match d with
                    | DArray elements => forallb is_number elements
                    | DOther _ => false
                    end) data.

(** ** Reading aids for the state machine *)

(** The elementary updates a cursor update is made of: [show()], [hide()],
    the assignment to [renderTooltipCloses] and a call of it. *)
Inductive through_ui (opts : Opts.t) (w : Tooltip) : Tooltip -> Prop :=
| ui_none : through_ui opts w w
| ui_show w' : through_ui opts w w' -> through_ui opts w (show opts w')
| ui_hide w' : through_ui opts w w' -> through_ui opts w (hide opts w')
| ui_closure w' c :
    through_ui opts w w' -> through_ui opts w (with_closure c w')
| ui_call w' :
    through_ui opts w w' -> through_ui opts w (callRenderTooltipCloses opts w').

(** The overlay and the listeners agree with [state]: the overlay is
    displayed exactly when [visible], carries the pinned class exactly when
    [pinned], and the document listeners are registered exactly when
    [pinned] under the default renderer. *)
Definition consistent (opts : Opts.t) (w : Tooltip) : Prop :=
  display w = (if State.visible (state w) then DisplayBlock else DisplayNone) /\
  pinnedClass w = State.pinned (state w) /\
  documentListeners w = State.pinned (state w) && Opts.render_is_default opts.

(** A pinned tooltip has a holder layer. *)
Definition holder_when_pinned (w : Tooltip) : Prop :=
  State.pinned (state w) = true -> (1 <= pointsHolders w)%nat.

(** A click target outside the overlay and outside the chart. *)
Definition outside : ClickTarget := mkTarget true false false.

(** The events delivered by the four listeners on [over]. *)
Definition over_event (e : Event) : bool :=
  match e with
  | MouseDown _ | MouseUp _ | MouseEnter | MouseLeave => true
  | _ => false
  end.


(** ** Reading aids for the row builder *)

Section RowAids.
Variable SnapToValue : Type.
Variable Closest : SnapToValue.
Variable snap_truthy : SnapToValue -> bool.
Variable findDataIdx :
  list jsval -> Series.t -> Z -> option SnapToValue -> jsval -> Z.
Variable opts : Opts.t.
Variable snapToValues : SnapOption SnapToValue.
Variable interpolationValue : jsval.

(** The [rowData] object the loop pushes for a series and its plotted
    array. *)
Definition rowData (idx : Z) (sd : Series.t * list jsval) : Row.t :=
  let dValue :=
    findValue SnapToValue Closest snap_truthy findDataIdx snapToValues
      (snd sd) (fst sd) idx interpolationValue in
  Row.mk (Series.name (fst sd))
    (resolved SnapToValue Closest snap_truthy findDataIdx snapToValues
       interpolationValue idx sd)
    (match Series.formatter (fst sd) with
     | Some f => f dValue
     | None => Opts.value opts dValue (Series.precision (fst sd))
     end)
    (yValue SnapToValue Closest snap_truthy findDataIdx snapToValues
       interpolationValue idx sd)
    (Series.color (fst sd)) false
    (match Series.normalizedData (fst sd) with
     | Some nd => Some (index nd idx)
     | None => None
     end).

(** The series a row is emitted for. *)
Definition emittedSeries (data : list (list jsval)) (idx : Z)
    (series : list Series.t) : list (Series.t * list jsval) :=
  filter (fun sd => negb (skipped SnapToValue Closest snap_truthy findDataIdx
                            opts snapToValues interpolationValue idx sd))
    (shownSeries data series).

(** The numbers [sum += (value || 0)] adds, one for each series that is
    switched on, in series order. *)
Definition shownAddends (data : list (list jsval)) (idx : Z)
    (series : list Series.t) : list Z :=
  map (fun sd => or_zero (resolved SnapToValue Closest snap_truthy findDataIdx
                            snapToValues interpolationValue idx sd))
    (shownSeries data series).

End RowAids.

(** The integers between which doubles add without rounding, and the
    lists whose running total, added from the left from 0, stays there. *)
Definition exact_integer (z : Z) : Prop := - 2 ^ 53 <= z <= 2 ^ 53.

Definition adds_exactly (addends : list Z) : Prop :=
  forall n, exact_integer (fold_left Z.add (firstn n addends) 0).

(** A consistent comparator, for which [Array.prototype.sort] has a
    defined result: exchanging the arguments exchanges the sign, and "not
    after" is transitive. *)
Definition consistent_comparator (cmp : Row.t -> Row.t -> Z) : Prop :=
  (forall a b, cmp a b > 0 <-> cmp b a < 0) /\
  (forall a b c, cmp a b <= 0 -> cmp b c <= 0 -> cmp a c <= 0).

(** A row with its [active] field cleared. *)
Definition unflag (r : Row.t) : Row.t :=
  Row.mk (Row.name r) (Row.originalValue r) (Row.value r) (Row.y r)
    (Row.color r) false (Row.normalized r).

(** [showInTooltip !== false] *)
Definition inTooltip (s : Series.t) : bool :=
  match Series.showInTooltip s with Some false => false | _ => true end.

(** The chart of [one_opted_out] with a label where line [b] has a number. *)
Definition with_label : UPlot :=
  chart [line "x" true None; line "a" true (Some false); line "b" true None]
        [xs; [VNum 5; VNum 7; VNum 9]; [VNum 1; VStr "n/a"; VNum 4]].

(** A chart whose third series has no data array. *)
Definition short_data : UPlot :=
  chart [line "x" true None; line "a" true None; line "b" true None]
        [xs; [VNum 5; VNum 7; VNum 9]].

(** ** The default renderer, the default value formatter and [checkFocus] *)

(** The characters a string literal cannot hold. *)
Definition quote : string := String (Ascii.ascii_of_nat 34) EmptyString.
Definition newline : string := String (Ascii.ascii_of_nat 10) EmptyString.

(** [a.slice(0, end)] for an integer [end]: a negative [end] counts from
    the end of the array. *)
Definition slice0 {A : Type} (a : list A) (end_ : Z) : list A :=
  let len := Z.of_nat (List.length a) in
  let k := if end_ <? 0 then Z.max (len + end_) 0 else Z.min end_ len in
  firstn (Z.to_nat k) a.

Section DefaultRenderer.
(** [Number.prototype.toFixed] of a finite number, for a digit count
    between 0 and 100. *)
Variable toFixed : Z -> Z -> string.

(** [n.toFixed(digits)] for any [n] the formatter may reach: the digit
    count is checked first, [NaN] prints as such, and [undefined] has no
    method to call. *)
Definition callToFixed (n : jsval) (digits : Z) : result string :=
  match n with
  | VNum z =>
      if (0 <=? digits) && (digits <=? 100) then Ok (toFixed z digits)
      else Raise "RangeError: toFixed() digits argument must be between 0 and 100"
  | VNaN =>
      if (0 <=? digits) && (digits <=? 100) then Ok "NaN"%string
      else Raise "RangeError: toFixed() digits argument must be between 0 and 100"
  | VUndefined => Raise "TypeError: n is undefined"
  | VNull => Raise "TypeError: n is null"
  | VStr _ => Raise "TypeError: n.toFixed is not a function"
  end.

(** One element of the array [renderTooltip] joins. *)
Definition tooltipItem (r : Row.t) : string :=
  let val :=
    (Row.value r ++
     match Row.normalized r with
     | Some (VNum z) => " " ++ toFixed z 0 ++ "%"
     | Some VNaN => " NaN%"
     | _ => ""
     end)%string in
  let label :=
    (if Row.active r
     then "<b>" ++ Row.name r ++ " : " ++ val ++ "</b>"
     else Row.name r ++ " : " ++ val)%string in
  ("<div class=" ++ quote ++ "yagr-tooltip__item" ++ quote
   ++ " data-series-name=" ++ quote ++ Row.name r ++ quote ++ ">" ++ newline
   ++ "<span class=" ++ quote ++ "yagr-tooltip__mark" ++ quote
   ++ " style=" ++ quote ++ "background-color: " ++ Row.color r ++ quote
   ++ "></span>" ++ label ++ newline ++ "</div>")%string.

(** [renderTooltip(rows, renderOptions)], with the two options it reads,
    [maxLines] and [sort]. *)
Definition renderTooltip (rows : list Row.t) (maxLines : Z)
    (sort : option (Row.t -> Row.t -> Z)) : string :=
  let r := slice0 rows maxLines in
  let r := match sort with Some cmp => array_sort cmp r | None => r end in
  String.concat newline (map tooltipItem r).

(** [ySettings.nullValues], as the map from its own keys, and
    [options.precision] when it is a number. *)
Variable nullValues : option (string -> option string).
Variable options_precision : option Z.

Definition defaultTooltipValueFormatter (n : jsval) (precision : option Z)
    : result string :=
  match n with
  | VNull => Ok "-"%string
  | VStr s =>
      match nullValues with
      | Some own =>
          match own s with
          | Some label => Ok label
          | None => Ok s
          end
      | None => Ok s
      end
  | _ =>
      callToFixed n
        (match precision with
         | Some p => p
         | None => match options_precision with Some p => p | None => 2 end
         end)
  end.

End DefaultRenderer.

(** The target of a mouse move as [checkFocus] inspects it: whether the
    overlay contains it, whether it carries the class [yagr-tooltip__item],
    and its [data-series-name]. *)
Record FocusTarget : Type := mkFocusTarget {
  inOverlay : bool;
  isTooltipItem : bool;
  seriesName : option string
}.

(** [checkFocus(event)]: the first argument of its call
    [yagr.focus(.., true)], [None] for [null]. *)
Definition checkFocus (series : list Series.t) (target : option FocusTarget)
    : option string :=
  let serieName :=
    match target with
    | Some t => if inOverlay t && isTooltipItem t then seriesName t else None
    | None => None
    end in
  let serie :=
    match serieName with
    | Some n =>
        if String.eqb n "" then None
        else find (fun s => String.eqb (Series.name s) n) series
    | None => None
    end in
  match serie with
  | Some s => Some (Series.id s)
  | None => None
  end.

(** Integers printed with [digits] zero decimals, as [toFixed] prints an
    integer-valued number. *)
Definition sample_toFixed (z digits : Z) : string :=
  (NilZero.string_of_int (Z.to_int z)
   ++ if Z.eqb digits 0 then ""
      else "." ++ String.concat "" (repeat "0" (Z.to_nat digits)))%string.

(** ** The plot lines plugin *)

Module PlotLines.

(** A JavaScript number: plot line values may be infinite. *)
Inductive number : Type :=
| Num (z : Z)
| Infinity
| NegInfinity
| NaN.

(** [Math.abs(v) !== Infinity] *)
Definition isFiniteOrNaN (v : number) : bool :=
  match v with Infinity | NegInfinity => false | _ => true end.

(** [a > b] *)
Definition gt (a b : number) : bool :=
  match a, b with
  | NaN, _ | _, NaN => false
  | Num x, Num y => x >? y
  | Infinity, Infinity => false
  | Infinity, _ => true
  | _, NegInfinity => match a with NegInfinity => false | _ => true end
  | _, _ => false
  end.

(** [a - b] *)
Definition sub (a b : number) : number :=
  match a, b with
  | NaN, _ | _, NaN => NaN
  | Num x, Num y => Num (x - y)
  | Infinity, Infinity | NegInfinity, NegInfinity => NaN
  | Infinity, _ | _, NegInfinity => Infinity
  | NegInfinity, _ | _, Infinity => NegInfinity
  end.

(** Truthiness of a number and of a string. *)
Definition truthy (v : number) : bool :=
  match v with Num 0 | NaN => false | _ => true end.

Definition nonEmpty (s : string) : bool := negb (String.eqb s "").

(** The keys of [drawOrder] and the hooks of [HOOKS_MAP]. *)
Inductive DrawKey : Type := Series | Axes | PlotLinesKey.
Inductive Hook : Type := draw | drawClear | drawAxes | drawSeries.

Definition DRAW_MAP (key : DrawKey) : string :=
  match key with
  | Series => "0"
  | Axes => "1"
  | PlotLinesKey => "2"
  end.

Definition HOOKS_MAP (drawIndicies : string) : option Hook :=
  if String.eqb drawIndicies "012" then Some draw
  else if String.eqb drawIndicies "102" then Some draw
  else if String.eqb drawIndicies "201" then Some drawClear
  else if String.eqb drawIndicies "210" then Some drawClear
  else if String.eqb drawIndicies "120" then Some drawAxes
  else if String.eqb drawIndicies "021" then Some drawSeries
  else None.

(** [drawIndicies] and [hook], from [appereance?.drawOrder]. *)
Definition drawIndicies (drawOrder : option (list DrawKey)) : string :=
  match drawOrder with
  | Some order => String.concat "" (map DRAW_MAP order)
  | None => "012"
  end.

Definition hook (drawOrder : option (list DrawKey)) : Hook :=
  match HOOKS_MAP (drawIndicies drawOrder) with
  | Some h => h
  | None => drawClear
  end.

(** [PlotLineConfig]: a line has one value, a band two. *)
Inductive PlotValue : Type :=
| Line (value : number)
| Band (from to : number).

(** The [scale] key of a plot line object: absent, present and holding
    [undefined], or holding a string. *)
Inductive ScaleKey : Type :=
| NoKey
| Undefined
| Scale (s : string).

Record PlotLineConfig : Type := mkPlotLine {
  scaleKey : ScaleKey;
  value : PlotValue;
  color : string;
  width : option number;
  dash : option (list Z)
}.

(** [p.scale]: [None] is [undefined], whether the key is there or not. *)
Definition scale (p : PlotLineConfig) : option string :=
  match scaleKey p with Scale s => Some s | _ => None end.

(** The plugin's [plotLines] array and its three methods. *)
Definition get (plotLines : list PlotLineConfig) : list PlotLineConfig :=
  plotLines.

(** [scale ? ... : ...] on an optional string. *)
Definition given (scale : option string) : bool :=
  match scale with Some s => nonEmpty s | None => false end.

Definition clear (scale : option string) (plotLines : list PlotLineConfig)
    : list PlotLineConfig :=
  if given scale
  then filter (fun p => negb (match PlotLines.scale p, scale with
                              | Some a, Some b => String.eqb a b
                              | None, None => true
                              | _, _ => false
                              end)) plotLines
  else [].

(** [{scale, ...p}]: a [scale] key of [p]'s own wins, also one that holds
    [undefined]. *)
Definition withScale (s : option string) (p : PlotLineConfig) : PlotLineConfig :=
  match scaleKey p with
  | NoKey =>
      mkPlotLine (match s with Some x => Scale x | None => Undefined end)
        (value p) (color p) (width p) (dash p)
  | _ => p
  end.

Definition add (additionalPlotLines : list PlotLineConfig)
    (scale : option string) (plotLines : list PlotLineConfig)
    : list PlotLineConfig :=
  fold_left
    (fun lines p => lines ++ [if given scale then withScale scale p else p])
    additionalPlotLines plotLines.

(** The calls made on the canvas context. *)
Inductive Call : Type :=
| save
| restore
| fillStyle (c : string)
| fillRect (x y w h : number)
| beginPath
| moveTo (x y : number)
| lineTo (x y : number)
| lineWidth (w : number)
| strokeStyle (c : string)
| setLineDash (d : list Z)
| closePath
| stroke.

(** What [renderPlotLines] reads from the chart. *)
Record Chart : Type := mkChart {
  bbox_height : number;
  bbox_top : number;
  bbox_width : number;
  bbox_left : number;
  u_width : number;
  u_height : number;
  data_0 : list number;
  series_length : Z
}.

Definition MAX_X_SCALE_LINE_OFFSET : number := Num 5.

Section Render.
(** [DEFAULT_X_SCALE] and [DEFAULT_CANVAS_PIXEL_RATIO] of defaults.ts,
    [u.valToPos(v, scale, true)] (with [None] for an [undefined] value),
    [u.posToVal(pos, scale)] and [yagr.utils.colors.parse]. *)
Variable DEFAULT_X_SCALE : string.
Variable DEFAULT_CANVAS_PIXEL_RATIO : number.
Variable valToPos : option number -> string -> number.
Variable posToVal : number -> string -> number.
Variable parse : string -> string.

(** The last element of [u.data[0]], [undefined] when it is empty. *)
Definition lastX (u : Chart) : option number :=
  match rev (data_0 u) with x :: _ => Some x | [] => None end.

(** An infinite bound of a band becomes the value at the edge of the plot. *)
Definition bound (u : Chart) (scale : string) (val : number) : number :=
  if isFiniteOrNaN val then val
  else
    let pos :=
      if gt val (Num 0)
      then (if String.eqb scale DEFAULT_X_SCALE then u_width u else Num 0)
      else (if String.eqb scale DEFAULT_X_SCALE then Num 0 else u_height u) in
    posToVal pos scale.

(** The test that leaves a line on the x scale undrawn. *)
Definition beyondData (u : Chart) (scale : string) (v : number) : bool :=
  gt (sub (valToPos (Some v) scale) (valToPos (lastX u) scale))
     MAX_X_SCALE_LINE_OFFSET.

(** One pass of the loop of [renderPlotLines]. *)
Definition renderPlotLine (u : Chart) (plotLineConfig : PlotLineConfig)
    : list Call :=
  match PlotLines.scale plotLineConfig with
  | None => []
  | Some scale =>
      if negb (nonEmpty scale) then [] else
      [save; fillStyle (parse (color plotLineConfig))] ++
      match value plotLineConfig with
      | Band v0 v1 =>
          let from := valToPos (Some (bound u scale v0)) scale in
          let to := valToPos (Some (bound u scale v1)) scale in
          (if String.eqb scale DEFAULT_X_SCALE
           then [fillRect from (bbox_top u) (sub to from) (bbox_height u)]
           else [fillRect (bbox_left u) from (bbox_width u) (sub to from)])
          ++ [restore]
      | Line v =>
          let from := valToPos (Some v) scale in
          beginPath ::
          (if String.eqb scale DEFAULT_X_SCALE
           then
             if beyondData u scale v then []
             else [moveTo from (bbox_top u); lineTo from (bbox_height u)]
                  ++ [lineWidth (match width plotLineConfig with
                                 | Some w => if truthy w then w
                                             else DEFAULT_CANVAS_PIXEL_RATIO
                                 | None => DEFAULT_CANVAS_PIXEL_RATIO
                                 end);
                      strokeStyle (if nonEmpty (color plotLineConfig)
                                   then color plotLineConfig else "#000")]
                  ++ match dash plotLineConfig with
                     | Some d => [setLineDash d]
                     | None => []
                     end
                  ++ [closePath; stroke; restore]
           else
             [moveTo (bbox_left u) from; lineTo (bbox_width u) from]
             ++ [lineWidth (match width plotLineConfig with
                            | Some w => if truthy w then w
                                        else DEFAULT_CANVAS_PIXEL_RATIO
                            | None => DEFAULT_CANVAS_PIXEL_RATIO
                            end);
                 strokeStyle (if nonEmpty (color plotLineConfig)
                              then color plotLineConfig else "#000")]
             ++ match dash plotLineConfig with
                | Some d => [setLineDash d]
                | None => []
                end
             ++ [closePath; stroke; restore])
      end
  end.

Definition renderPlotLines (u : Chart) (plotLines : list PlotLineConfig)
    : list Call :=
  flat_map (renderPlotLine u) plotLines.

(** [handler]: under the [drawSeries] hook the lines are drawn after the
    last series only. *)
Definition handler (h : Hook) (u : Chart) (sIdx : Z)
    (plotLines : list PlotLineConfig) : list Call :=
  match h with
  | drawSeries =>
      if sIdx =? series_length u - 1 then renderPlotLines u plotLines else []
  | _ => renderPlotLines u plotLines
  end.

(** The lines on the x scale that the loop leaves undrawn. *)
Definition undrawn (u : Chart) (p : PlotLineConfig) : bool :=
  match PlotLines.scale p, value p with
  | Some scale, Line v =>
      nonEmpty scale && String.eqb scale DEFAULT_X_SCALE && beyondData u scale v
  | _, _ => false
  end.

End Render.

(** The number of [c]-calls in a list of calls, for a call without
    arguments. *)
Definition count (c : Call) (calls : list Call) : nat :=
  List.length (filter (fun c' => match c, c' with
                                 | save, save | restore, restore
                                 | stroke, stroke | beginPath, beginPath => true
                                 | _, _ => false
                                 end) calls).

End PlotLines.

(** * Properties *)

(** ** show and hide *)

Lemma show_state (opts : Opts.t) (w : Tooltip) :
  state (show opts w) = set_visible true (state w).
Proof.
  unfold show, emit.
  destruct (State.visible (state w)), (Opts.onStateChange opts); reflexivity.
Qed.

Lemma show_log (opts : Opts.t) (w : Tooltip) :
  log (show opts w) =
  log w ++ (if Opts.onStateChange opts && negb (State.visible (state w))
            then [(Action.show, set_visible true (state w))] else []).
Proof.
  unfold show, emit.
  destruct (State.visible (state w)), (Opts.onStateChange opts);
    simpl; try reflexivity; now rewrite app_nil_r.
Qed.

(** C8: [show()] sets [visible] to true and the overlay to [block]; the
    callback is told, with the tag [show], exactly when [visible] was false
    before (and a callback is configured); a second [show()] in a row adds
    no notification. *)
Theorem show_emits_on_rising_edge (opts : Opts.t) (w : Tooltip) :
  State.visible (state (show opts w)) = true /\
  display (show opts w) = DisplayBlock /\
  log (show opts w) =
    log w ++ (if Opts.onStateChange opts && negb (State.visible (state w))
              then [(Action.show, set_visible true (state w))] else []) /\
  log (show opts (show opts w)) = log (show opts w).
Proof.
  repeat split.
  - now rewrite show_state.
  - unfold show, emit.
    destruct (State.visible (state w)), (Opts.onStateChange opts); reflexivity.
  - apply show_log.
  - rewrite (show_log opts (show opts w)), show_state; simpl.
    now rewrite andb_false_r, app_nil_r.
Qed.

Lemma hide_state (opts : Opts.t) (w : Tooltip) :
  state (hide opts w) = set_visible false (state w) /\
  display (hide opts w) = DisplayNone.
Proof.
  unfold hide, emit.
  destruct (State.visible (state w)), (Opts.onStateChange opts);
    split; reflexivity.
Qed.

(** What [hide()] tells the callback: [hide] on every call, then [show] when
    [visible] was true. *)
Lemma hide_log (opts : Opts.t) (w : Tooltip) :
  log (hide opts w) =
  log w ++ (if Opts.onStateChange opts
            then (Action.hide, set_visible false (state w))
                 :: (if State.visible (state w)
                     then [(Action.show, set_visible false (state w))] else [])
            else []).
Proof.
  unfold hide, emit.
  destruct (State.visible (state w)), (Opts.onStateChange opts);
    simpl; try reflexivity; try (now rewrite app_nil_r);
    now rewrite <- app_assoc.
Qed.

(** C1: on a visible tooltip with a callback, two [hide()] calls in a row
    hide the overlay and notify three times, with the tags [hide], [show],
    [hide]: one [hide] per call whatever [visible] was, and a [show] on the
    true-to-false edge. *)
Theorem hide_twice_notifies_three_times :
  let w := hide (defaults true) (hide (defaults true) shown) in
  State.visible (state shown) = true /\
  State.visible (state w) = false /\
  display w = DisplayNone /\
  map fst (log w) =
    map fst (log shown) ++ [Action.hide; Action.show; Action.hide].
Proof.
  repeat split; reflexivity.
Qed.

(** ** Click detection *)

(** C10: when the recorded pointer-down coordinate is 0, [onMouseUp] leaves
    the tooltip as it is, whatever the up-coordinate: [pinned] is not
    toggled, nothing is shown or rendered. *)
Theorem onMouseUp_after_down_at_zero (opts : Opts.t) (w : Tooltip) (clientX : Z) :
  State.clickStartedX (state w) = Some 0 ->
  onMouseUp opts clientX w = w /\
  State.pinned (state (onMouseUp opts clientX w)) = State.pinned (state w).
Proof.
  intros H. unfold onMouseUp. rewrite H. simpl.
  rewrite andb_false_r. split; reflexivity.
Qed.

(** A press and release at x = 0 on the fresh tooltip, pinning enabled. *)
Lemma onMouseUp_after_down_at_zero_witness :
  State.clickStartedX (state (onMouseDown 0 (created (defaults true)))) = Some 0 /\
  Opts.pinable (defaults true) = true /\
  State.pinned
    (state (onMouseUp (defaults true) 0 (onMouseDown 0 (created (defaults true)))))
  = false.
Proof.
  split; [reflexivity | split; [reflexivity |]].
  destruct (onMouseUp_after_down_at_zero (defaults true)
              (onMouseDown 0 (created (defaults true))) 0 eq_refl) as [_ H].
  rewrite H. reflexivity.
Defined.

(** ** Value resolver *)

Section Resolver.
Variable SnapToValue : Type.
Variable Closest : SnapToValue.
Variable snap_truthy : SnapToValue -> bool.
Variable findDataIdx :
  list jsval -> Series.t -> Z -> option SnapToValue -> jsval -> Z.

(** C5: the resolver reads the display-source array [$c] when the series
    has one and the plotted array otherwise; when the sample at the index is
    not the gap-marker (the [stripValue] argument, [null] when it is not
    given) that sample is the result, whatever the snap policy and the
    search helper.  The resolver only reads its arrays. *)
Theorem findValue_keeps_non_gap_sample
    (snapToValues : SnapOption SnapToValue) (data : list jsval)
    (serie : Series.t) (idx : Z) (stripValue : jsval) :
  let source :=
    match Series.dollar_c serie with Some c => c | None => data end in
  strict_eq (index source idx) (default_param stripValue VNull) = false ->
  findValue SnapToValue Closest snap_truthy findDataIdx
    snapToValues data serie idx stripValue = index source idx.
Proof.
  intros source H. unfold findValue. fold source. now rewrite H.
Qed.

End Resolver.

(** A series whose display source differs from its plotted array. *)
Lemma findValue_keeps_non_gap_sample_witness :
  findValue SnapPolicy SnapClosest (fun _ => true) sample_findDataIdx
    SnapUndefined [VNum 1; VNull; VNum 4]
    (Series.mk "a" "a" "#000" true None (Some [VNum 8; VNull; VNull]) None None None)
    0 VNull = VNum 8.
Proof.
  apply (findValue_keeps_non_gap_sample SnapPolicy SnapClosest (fun _ => true)
           sample_findDataIdx SnapUndefined [VNum 1; VNull; VNum 4]
           (Series.mk "a" "a" "#000" true None (Some [VNum 8; VNull; VNull])
              None None None) 0 VNull).
  reflexivity.
Defined.

(** ** setData *)

(** C4, as stated, fails: an array of arrays of strings is not an array of
    numeric arrays, and [setData] returns normally on it. *)
Lemma setData_accepts_arrays_of_strings :
  numeric_arrays [DArray [VStr "a"; VStr "b"]] = false /\
  setData [DArray [VStr "a"; VStr "b"]] = Returns.
Proof. split; reflexivity. Qed.

(** C4, amended: [setData] throws exactly when some element of the data is
    not an array; what the arrays hold is not looked at.  The hook touches
    nothing of the tooltip, so no render happens in it. *)
Theorem setData_throws_iff_some_element_is_not_an_array (data : list datum) :
  (setData data <> Returns <-> Exists (fun d => isArray d = false) data) /\
  (forall SnapToValue Closest snap_truthy findDataIdx findInRange findSticky
          opts snapToValues interpolationValue w,
     fst (step SnapToValue Closest snap_truthy findDataIdx findInRange
            findSticky opts snapToValues interpolationValue (SetData data) w)
     = w).
Proof.
  split; [| reflexivity].
  unfold setData.
  destruct (forallb isArray data) eqn:E; simpl.
  - split; [congruence |].
    intros HE. apply Exists_exists in HE. destruct HE as [d [Hin Hd]].
    rewrite forallb_forall in E. apply E in Hin. congruence.
  - split; [| discriminate].
    intros _. apply Exists_exists.
    induction data as [| d data IH]; simpl in E; [discriminate |].
    apply andb_false_iff in E. destruct E as [E | E].
    + exists d. split; [now left | exact E].
    + destruct (IH E) as [d' [Hin Hd']]. exists d'. split; [now right | exact Hd'].
Qed.

(** ** Frame lemmas for the handlers *)

Section HandlerFacts.
Variable opts : Opts.t.

Lemma emit_state (a : Action.t) (w : Tooltip) : state (emit opts a w) = state w.
Proof. unfold emit. now destruct (Opts.onStateChange opts). Qed.

Lemma emit_renders (a : Action.t) (w : Tooltip) :
  renders (emit opts a w) = renders w /\
  renderTooltipCloses (emit opts a w) = renderTooltipCloses w.
Proof. unfold emit. now destruct (Opts.onStateChange opts). Qed.

Lemma show_renders (w : Tooltip) :
  renders (show opts w) = renders w /\
  renderTooltipCloses (show opts w) = renderTooltipCloses w.
Proof.
  unfold show, emit.
  now destruct (State.visible (state w)), (Opts.onStateChange opts).
Qed.

Lemma hide_renders (w : Tooltip) :
  renders (hide opts w) = renders w /\
  renderTooltipCloses (hide opts w) = renderTooltipCloses w.
Proof.
  unfold hide, emit.
  now destruct (State.visible (state w)), (Opts.onStateChange opts).
Qed.

Lemma pin_state (b : bool) (w : Tooltip) :
  state (pin opts b w) = set_pinned b (state w).
Proof. unfold pin. rewrite emit_state. now destruct b. Qed.

Lemma pin_renders (b : bool) (w : Tooltip) :
  renders (pin opts b w) = renders w /\
  renderTooltipCloses (pin opts b w) = renderTooltipCloses w.
Proof.
  unfold pin, emit. now destruct b, (Opts.onStateChange opts).
Qed.

Lemma callRenderTooltipCloses_state (w : Tooltip) :
  state (callRenderTooltipCloses opts w) = state w.
Proof.
  unfold callRenderTooltipCloses.
  destruct (renderTooltipCloses w); [now rewrite emit_state | reflexivity].
Qed.

Lemma callRenderTooltipCloses_renders (w : Tooltip) :
  renders (callRenderTooltipCloses opts w) =
    renders w ++ match renderTooltipCloses w with
                 | Some c => [renderArgs opts c (State.pinned (state w))]
                 | None => []
                 end /\
  renderTooltipCloses (callRenderTooltipCloses opts w) = renderTooltipCloses w.
Proof.
  unfold callRenderTooltipCloses.
  destruct (renderTooltipCloses w) eqn:E.
  - destruct (emit_renders Action.render
                (with_render (renderArgs opts r (State.pinned (state w))) w))
      as [H1 H2].
    rewrite H1, H2. simpl. now rewrite E.
  - rewrite E, app_nil_r. now split.
Qed.

Lemma onMouseUp_state (clientX : Z) (w : Tooltip) :
  state (onMouseUp opts clientX w) =
  if Opts.pinable opts && isClick (State.clickStartedX (state w)) clientX
  then set_visible true (set_pinned (negb (State.pinned (state w))) (state w))
  else state w.
Proof.
  unfold onMouseUp.
  destruct (Opts.pinable opts && isClick (State.clickStartedX (state w)) clientX);
    [| reflexivity].
  now rewrite callRenderTooltipCloses_state, show_state, pin_state.
Qed.


Lemma onMouseUp_closure (clientX : Z) (w : Tooltip) :
  renderTooltipCloses (onMouseUp opts clientX w) = renderTooltipCloses w.
Proof.
  unfold onMouseUp.
  destruct (Opts.pinable opts && isClick (State.clickStartedX (state w)) clientX);
    [| reflexivity].
  destruct (callRenderTooltipCloses_renders
              (show opts (pin opts (negb (State.pinned (state w))) w))) as [_ H1].
  destruct (show_renders (pin opts (negb (State.pinned (state w))) w)) as [_ H3].
  destruct (pin_renders (negb (State.pinned (state w))) w) as [_ H5].
  now rewrite H1, H3, H5.
Qed.

Lemma destroy_state (w : Tooltip) :
  state (destroy opts w) = set_mounted false (state w).
Proof. unfold destroy. now rewrite emit_state. Qed.

Lemma detectClickOutside_state (target : ClickTarget) (w : Tooltip) :
  State.mounted (state (detectClickOutside opts target w)) =
  State.mounted (state w).
Proof.
  unfold detectClickOutside.
  destruct (isElement target); [| reflexivity].
  destruct (negb (insideTooltip target) && negb (insideOver target));
    [| reflexivity].
  destruct (hide_state opts (pin opts false w)) as [H _].
  now rewrite H, pin_state.
Qed.

Lemma detectClickOutside_renders (target : ClickTarget) (w : Tooltip) :
  renders (detectClickOutside opts target w) = renders w.
Proof.
  unfold detectClickOutside.
  destruct (isElement target); [| reflexivity].
  destruct (negb (insideTooltip target) && negb (insideOver target));
    [| reflexivity].
  destruct (hide_renders (pin opts false w)) as [H _].
  destruct (pin_renders false w) as [H' _]. now rewrite H, H'.
Qed.

End HandlerFacts.

(** ** The row loop *)


Lemma sort_insert_inactive cmp x l :
  Row.active x = false -> inactive l -> inactive (sort_insert cmp x l).
Proof.
  intros Hx Hl. induction Hl as [| y l Hy Hl IH]; simpl.
  - now constructor.
  - destruct (cmp y x >? 0); constructor; auto.
Qed.

Lemma array_sort_inactive cmp l : inactive l -> inactive (array_sort cmp l).
Proof.
  unfold array_sort. intros Hl.
  assert (G : forall acc, inactive acc ->
            inactive (fold_left (fun sorted x => sort_insert cmp x sorted) l acc)).
  { induction Hl as [| x l Hx Hl IH]; simpl; intros acc Hacc; [exact Hacc |].
    apply IH. now apply sort_insert_inactive. }
  apply G. constructor.
Qed.

Section CursorFacts.
Variable SnapToValue : Type.
Variable Closest : SnapToValue.
Variable snap_truthy : SnapToValue -> bool.
Variable findDataIdx :
  list jsval -> Series.t -> Z -> option SnapToValue -> jsval -> Z.
Variable findInRange : list jsval -> Z -> bool -> option nat.
Variable findSticky : list jsval -> Z -> option nat.
Variable opts : Opts.t.
Variable snapToValues : SnapOption SnapToValue.
Variable interpolationValue : jsval.

Let rowLoop' :=
  rowLoop SnapToValue Closest snap_truthy findDataIdx opts snapToValues
    interpolationValue.
Let buildRows' :=
  buildRows SnapToValue Closest snap_truthy findDataIdx opts snapToValues
    interpolationValue.
Let highlight' := highlight findInRange findSticky opts.
Let scheduled' :=
  scheduled SnapToValue Closest snap_truthy findDataIdx findInRange findSticky
    opts snapToValues interpolationValue.
Let setCursor' :=
  setCursor SnapToValue Closest snap_truthy findDataIdx findInRange findSticky
    opts snapToValues interpolationValue.
Let step' :=
  step SnapToValue Closest snap_truthy findDataIdx findInRange findSticky
    opts snapToValues interpolationValue.
Let run' :=
  run SnapToValue Closest snap_truthy findDataIdx findInRange findSticky
    opts snapToValues interpolationValue.

(** One pass of the loop body, as the three things it can do. *)
Lemma rowLoop_step data idx serie rest l :
  rowLoop' data idx (serie :: rest) l =
  if negb (Series.show serie)
  then rowLoop' data idx rest
         (mkLocals (rows l) (sum l) (S (i l)) (ys l) (rowYs l))
  else match nth_error data (i l) with
       | None => Raise "TypeError: u.data[i] is undefined"
       | Some data_i =>
           let sd := (serie, data_i) in
           let value := resolved SnapToValue Closest snap_truthy findDataIdx
                          snapToValues interpolationValue idx sd in
           let yv := yValue SnapToValue Closest snap_truthy findDataIdx
                       snapToValues interpolationValue idx sd in
           let sum' := if Opts.total opts then sum l + or_zero value else sum l in
           if skipped SnapToValue Closest snap_truthy findDataIdx opts
                snapToValues interpolationValue idx sd
           then rowLoop' data idx rest
                  (mkLocals (rows l) sum' (S (i l)) (ys l ++ [yv]) (rowYs l))
           else rowLoop' data idx rest
                  (mkLocals
                     (rows l ++
                      [Row.mk (Series.name serie) value
                         (match Series.formatter serie with
                          | Some f =>
                              f (findValue SnapToValue Closest snap_truthy
                                   findDataIdx snapToValues data_i serie idx
                                   interpolationValue)
                          | None =>
                              Opts.value opts
                                (findValue SnapToValue Closest snap_truthy
                                   findDataIdx snapToValues data_i serie idx
                                   interpolationValue)
                                (Series.precision serie)
                          end)
                         yv (Series.color serie) false
                         (match Series.normalizedData serie with
                          | Some nd => Some (index nd idx)
                          | None => None
                          end)])
                     sum' (S (i l)) (ys l ++ [yv])
                     (rowYs l ++ [realY idx sd]))
       end.
Proof. reflexivity. Qed.


Lemma rowLoop_invariant data idx rest :
  forall l l', rowLoop' data idx rest l = Ok l' ->
               loop_invariant l -> loop_invariant l'.
Proof.
  induction rest as [| serie rest IH]; intros l l' H Hinv.
  - simpl in H. now inversion H; subst.
  - rewrite rowLoop_step in H.
    destruct Hinv as (Hin & Hlen & Hlt).
    destruct (negb (Series.show serie)).
    + apply IH in H; [exact H |]. repeat split; simpl; auto.
    + destruct (nth_error data (i l)) as [data_i |]; [| discriminate].
      cbv zeta in H.
      destruct (skipped _ _ _ _ _ _ _ _ _).
      * apply IH in H; [exact H |]. repeat split; simpl; auto.
      * apply IH in H; [exact H |]. repeat split; simpl.
        -- apply Forall_app. split; [exact Hin |]. now repeat constructor.
        -- rewrite !length_app. simpl. lia.
        -- rewrite length_app. simpl. lia.
Qed.

Lemma buildRows_invariant data idx series l :
  buildRows' data idx series = Ok l -> loop_invariant l.
Proof.
  intros H. apply (rowLoop_invariant _ _ _ _ _ H).
  repeat split; simpl; [constructor | lia].
Qed.

(** With tracking neither Sticky nor Area the index to flag is [i - 1],
    which is never an index of [rows]: the assignment throws. *)
Lemma highlight_tracking_other_throws cursorValue l :
  Opts.tracking opts = Tracking.Other ->
  Opts.highlightLines opts = true ->
  loop_invariant l ->
  highlight' cursorValue l = Raise "TypeError: rows[activeIndex] is undefined".
Proof.
  intros Ht Hh (_ & _ & Hlt). unfold highlight', highlight. rewrite Hh, Ht.
  destruct (Nat.ltb_spec (i l - 1) (List.length (rows l))); [lia | reflexivity].
Qed.

Lemma highlight_tracking_other_inactive cursorValue l rows' :
  Opts.tracking opts = Tracking.Other ->
  loop_invariant l ->
  highlight' cursorValue l = Ok rows' -> inactive rows'.
Proof.
  intros Ht Hinv H.
  destruct (Opts.highlightLines opts) eqn:Hh.
  - rewrite (highlight_tracking_other_throws _ _ Ht Hh Hinv) in H. discriminate.
  - unfold highlight', highlight in H. rewrite Hh in H.
    inversion H; subst. apply Hinv.
Qed.

(** The selection reads [rowYs], [rows] and [i], never [ys]. *)
Lemma highlight_ignores_ys cursorValue l ys' :
  highlight' cursorValue (mkLocals (rows l) (sum l) (i l) ys' (rowYs l)) =
  highlight' cursorValue l.
Proof. reflexivity. Qed.

(** *** What a cursor update leaves of the tooltip *)


Lemma same_frame_refl w : same_frame w w.
Proof. now repeat split. Qed.

Lemma same_frame_trans w1 w2 w3 :
  same_frame w1 w2 -> same_frame w2 w3 -> same_frame w1 w3.
Proof.
  intros (A1 & A2 & A3 & A4) (B1 & B2 & B3 & B4).
  repeat split; congruence.
Qed.

Lemma same_frame_show w : same_frame w (show opts w).
Proof.
  destruct (show_renders opts w) as [H1 H2].
  repeat split; auto; now rewrite show_state.
Qed.

Lemma same_frame_hide w : same_frame w (hide opts w).
Proof.
  destruct (hide_renders opts w) as [H1 H2].
  destruct (hide_state opts w) as [H3 _].
  repeat split; auto; now rewrite H3.
Qed.

Lemma same_frame_onMouseLeave w : same_frame w (onMouseLeave opts w).
Proof.
  unfold onMouseLeave. destruct (negb (State.pinned (state w)));
    [apply same_frame_hide | apply same_frame_refl].
Qed.


Lemma same_frame_offPlotHide u w : same_frame w (offPlotHide opts u w).
Proof.
  unfold offPlotHide.
  destruct (_ && _); [apply same_frame_hide | apply same_frame_refl].
Qed.

Lemma offPlotHide_pinned u w :
  State.pinned (state w) = true -> offPlotHide opts u w = w.
Proof.
  intros H. unfold offPlotHide. rewrite H. simpl. now rewrite andb_false_r.
Qed.

(** [setCursor] by cases on the closure it schedules: with one, the
    tooltip is shown, the closure stored and, unless pinned, run; without,
    nothing is stored or rendered. *)
Lemma setCursor_scheduled u w c :
  scheduled' u = Some c ->
  setCursor' u w =
  (let w2 := with_closure c (show opts (offPlotHide opts u w)) in
   if State.pinned (state w2) then w2 else callRenderTooltipCloses opts w2,
   Returns).
Proof.
  unfold scheduled', scheduled, setCursor', setCursor, offPlotHide, onMouseEnter.
  destruct (data u) as [d |]; [| discriminate].
  destruct (idx (cursor u)) as [k |]; [| discriminate].
  destruct (top (cursor u)) as [t |]; [| discriminate].
  destruct (negb (isChartInViewPort u)); [discriminate |].
  destruct (nth_error d 0) as [d0 |]; [| discriminate].
  destruct (buildRows _ _ _ _ _ _ _ d k (series u)) as [l | m]; [| discriminate].
  destruct (rows l) as [| r rs]; [discriminate |].
  destruct (highlight _ _ _ _ l) as [rows' | m]; [| discriminate].
  intros H. inversion H; subst. cbv zeta.
  destruct (State.pinned (state (with_closure _ _))); reflexivity.
Qed.

Lemma setCursor_not_scheduled u w :
  scheduled' u = None -> same_frame w (fst (setCursor' u w)).
Proof.
  unfold scheduled', scheduled, setCursor', setCursor.
  fold (offPlotHide opts u w).
  pose proof (same_frame_offPlotHide u w) as F.
  destruct (data u) as [d |]; [| intros _; exact F].
  destruct (idx (cursor u)) as [k |]; [| intros _; exact F].
  destruct (top (cursor u)) as [t |]; [| intros _; exact F].
  destruct (negb (isChartInViewPort u)); [intros _; exact F |].
  destruct (nth_error d 0) as [d0 |]; [| intros _; exact F].
  destruct (buildRows _ _ _ _ _ _ _ d k (series u)) as [l | m];
    [| intros _; exact F].
  destruct (rows l) as [| r rs].
  - intros _. simpl. eapply same_frame_trans; [exact F |].
    apply same_frame_onMouseLeave.
  - destruct (highlight _ _ _ _ l) as [rows' | m]; [discriminate |].
    intros _. simpl. eapply same_frame_trans; [exact F |].
    apply same_frame_show.
Qed.

Lemma setCursor_pinned_mounted u w :
  State.pinned (state (fst (setCursor' u w))) = State.pinned (state w) /\
  State.mounted (state (fst (setCursor' u w))) = State.mounted (state w).
Proof.
  destruct (scheduled' u) as [c |] eqn:E.
  - rewrite (setCursor_scheduled _ _ _ E). cbv zeta. simpl fst.
    destruct (same_frame_trans _ _ _ (same_frame_offPlotHide u w)
                (same_frame_show (offPlotHide opts u w))) as (P & M & _ & _).
    destruct (State.pinned (state (show opts (offPlotHide opts u w)))) eqn:Hp;
      [| rewrite !callRenderTooltipCloses_state]; simpl; rewrite <- ?P; auto.
  - destruct (setCursor_not_scheduled _ w E) as (P & M & _ & _). auto.
Qed.

Lemma setCursor_closure u w :
  renderTooltipCloses (fst (setCursor' u w)) =
  match scheduled' u with
  | Some c => Some c
  | None => renderTooltipCloses w
  end.
Proof.
  destruct (scheduled' u) as [c |] eqn:E.
  - rewrite (setCursor_scheduled _ _ _ E). cbv zeta. simpl fst.
    destruct (State.pinned (state (show opts (offPlotHide opts u w))));
      [reflexivity |].
    now destruct (callRenderTooltipCloses_renders opts
                    (with_closure c (show opts (offPlotHide opts u w)))) as [_ ->].
  - now destruct (setCursor_not_scheduled _ w E) as (_ & _ & _ & ->).
Qed.

(** A cursor update renders at most once: its own closure, at once, when
    the tooltip is not pinned. *)
Lemma setCursor_renders u w :
  renders (fst (setCursor' u w)) =
  renders w ++ (if State.pinned (state w) then []
                else match scheduled' u with
                     | Some c => [renderArgs opts c false]
                     | None => []
                     end).
Proof.
  destruct (scheduled' u) as [c |] eqn:E.
  - rewrite (setCursor_scheduled _ _ _ E). cbv zeta. simpl fst.
    destruct (same_frame_trans _ _ _ (same_frame_offPlotHide u w)
                (same_frame_show (offPlotHide opts u w))) as (P & _ & R & _).
    rewrite P.
    destruct (State.pinned (state w)) eqn:Hp.
    + simpl. now rewrite R, app_nil_r.
    + destruct (callRenderTooltipCloses_renders opts
                  (with_closure c (show opts (offPlotHide opts u w)))) as [-> _].
      simpl. now rewrite R, P.
  - destruct (setCursor_not_scheduled _ w E) as (_ & _ & -> & _).
    destruct (State.pinned (state w)); now rewrite app_nil_r.
Qed.

(** *** Tracking disabled *)

Lemma scheduled_tracking_other_inactive u c :
  Opts.tracking opts = Tracking.Other ->
  scheduled' u = Some c -> inactive (c_rows c).
Proof.
  intros Ht. unfold scheduled', scheduled.
  destruct (data u) as [d |]; [| discriminate].
  destruct (idx (cursor u)) as [k |]; [| discriminate].
  destruct (top (cursor u)) as [t |]; [| discriminate].
  destruct (negb (isChartInViewPort u)); [discriminate |].
  destruct (nth_error d 0) as [d0 |]; [| discriminate].
  destruct (buildRows _ _ _ _ _ _ _ d k (series u)) as [l | m] eqn:B;
    [| discriminate].
  destruct (rows l) as [| r rs] eqn:R; [discriminate |].
  destruct (highlight _ _ _ _ l) as [rows' | m] eqn:H; [| discriminate].
  intros E. inversion E; subst; simpl.
  assert (I : inactive rows').
  { apply (highlight_tracking_other_inactive (cursorValue u) l rows' Ht);
      [apply (buildRows_invariant _ _ _ _ B) | exact H]. }
  destruct (Opts.sort opts); [now apply array_sort_inactive | exact I].
Qed.

(** With a tracking policy that is neither Sticky nor Area, no row
    sequence a cursor update stores in the render closure or hands to the
    renderer has a row flagged active.  With highlighting off the rows go
    through unflagged; with highlighting on this holds for want of any row
    sequence, see [tracking_disabled_never_schedules]. *)
Theorem tracking_disabled_flags_no_row (u : UPlot) (w : Tooltip) :
  Opts.tracking opts = Tracking.Other ->
  let w' := fst (setCursor' u w) in
  (renderTooltipCloses w' = renderTooltipCloses w \/
   exists c, renderTooltipCloses w' = Some c /\ inactive (c_rows c)) /\
  (exists calls, renders w' = renders w ++ calls /\
                 Forall (fun call => inactive (rc_rows call)) calls).
Proof.
  intros Ht w'. subst w'.
  rewrite setCursor_closure, setCursor_renders.
  destruct (scheduled' u) as [c |] eqn:E.
  - pose proof (scheduled_tracking_other_inactive _ _ Ht E) as I.
    split; [right; now exists c |].
    destruct (State.pinned (state w)).
    + exists []. split; [reflexivity | constructor].
    + exists [renderArgs opts c false]. split; [reflexivity |].
      now repeat constructor.
  - split; [now left |].
    exists []. split; [now destruct (State.pinned (state w)) | constructor].
Qed.

(** With highlighting on and a tracking policy that is neither Sticky nor
    Area, no cursor update ever gets as far as the render closure: it
    returns early, or it throws at [rows[activeIndex].active = true]. *)
Lemma tracking_disabled_never_schedules (u : UPlot) :
  Opts.tracking opts = Tracking.Other -> Opts.highlightLines opts = true ->
  scheduled' u = None.
Proof.
  intros Ht Hh. unfold scheduled', scheduled.
  destruct (data u) as [d |]; [| reflexivity].
  destruct (idx (cursor u)) as [k |]; [| reflexivity].
  destruct (top (cursor u)) as [t |]; [| reflexivity].
  destruct (negb (isChartInViewPort u)); [reflexivity |].
  destruct (nth_error d 0) as [d0 |]; [| reflexivity].
  destruct (buildRows _ _ _ _ _ _ _ d k (series u)) as [l | m] eqn:B;
    [| reflexivity].
  destruct (rows l) as [| r rs] eqn:R; [reflexivity |].
  pose proof (highlight_tracking_other_throws (cursorValue u) l Ht Hh
                (buildRows_invariant _ _ _ _ B)) as H.
  unfold highlight' in H. now rewrite H.
Qed.

(** *** Empty row set *)

(** C6, amended: a cursor update that builds an empty row sequence returns
    without rendering and without touching the render closure; on an
    unpinned tooltip it ends in [hide()], a pinned tooltip is left as it
    is. *)
Theorem empty_rows_hide_unless_pinned
    (u : UPlot) (w : Tooltip) (d : list (list jsval)) (k t : Z)
    (d0 : list jsval) (l : Locals) :
  data u = Some d -> idx (cursor u) = Some k -> top (cursor u) = Some t ->
  isChartInViewPort u = true -> nth_error d 0 = Some d0 ->
  buildRows' d k (series u) = Ok l -> rows l = [] ->
  let w' := fst (setCursor' u w) in
  snd (setCursor' u w) = Returns /\
  renders w' = renders w /\
  renderTooltipCloses w' = renderTooltipCloses w /\
  (State.pinned (state w) = true -> w' = w) /\
  (State.pinned (state w) = false ->
   State.visible (state w') = false /\ display w' = DisplayNone /\
   (w' = hide opts w \/ w' = hide opts (hide opts w))).
Proof.
  intros Hd Hk Ht Hv H0 Hb Hr w'.
  assert (E : setCursor' u w = (onMouseLeave opts (offPlotHide opts u w), Returns)).
  { unfold setCursor', setCursor. fold (offPlotHide opts u w).
    rewrite Hd, Hk, Ht, Hv, H0. simpl negb. cbv iota.
    unfold buildRows' in Hb. rewrite Hb, Hr. reflexivity. }
  subst w'. rewrite E. simpl fst. simpl snd.
  destruct (same_frame_trans _ _ _ (same_frame_offPlotHide u w)
              (same_frame_onMouseLeave (offPlotHide opts u w))) as (P & _ & R & C).
  split; [reflexivity |]. split; [exact R |]. split; [exact C |]. split.
  - intros Hp. rewrite (offPlotHide_pinned u w Hp).
    unfold onMouseLeave. now rewrite Hp.
  - intros Hp. unfold onMouseLeave.
    destruct (same_frame_offPlotHide u w) as (-> & _). rewrite Hp. simpl.
    destruct (hide_state opts (offPlotHide opts u w)) as [-> ->].
    split; [reflexivity |]. split; [reflexivity |].
    unfold offPlotHide. destruct (_ && _); [now right | now left].
Qed.

(** *** Mounted and pinned *)

Lemma step_mounted e w :
  e <> Destroy ->
  State.mounted (state (fst (step' e w))) = State.mounted (state w).
Proof.
  intros Hd. destruct e; simpl; try congruence.
  - now rewrite show_state.
  - now destruct (hide_state opts w) as [-> _].
  - now rewrite pin_state.
  - now destruct (overListeners w).
  - destruct (overListeners w); [| reflexivity].
    rewrite onMouseUp_state. now destruct (_ && _).
  - destruct (overListeners w); [| reflexivity].
    unfold onMouseEnter. now rewrite show_state.
  - destruct (overListeners w); [| reflexivity].
    apply (same_frame_onMouseLeave w).
  - destruct (documentListeners w); [| reflexivity].
    apply detectClickOutside_state.
  - apply setCursor_pinned_mounted.
Qed.

Lemma run_mounted events :
  ~ In Destroy events ->
  forall w, State.mounted (state (run' events w)) = State.mounted (state w).
Proof.
  induction events as [| e events IH]; intros Hn w; [reflexivity |].
  simpl. rewrite IH.
  - apply step_mounted. intros ->. apply Hn. now left.
  - intros Hin. apply Hn. now right.
Qed.

(** C2, amended: in every state reached from the created tooltip without
    [destroy()], [mounted] is true, so [pinned] implies [mounted];
    [destroy()] then sets [mounted] to false and leaves [pinned] as it
    was. *)
Theorem pinned_implies_mounted_until_destroy (events : list Event) :
  ~ In Destroy events ->
  let w := run' events (created opts) in
  State.mounted (state w) = true /\
  (State.pinned (state w) = true -> State.mounted (state w) = true) /\
  State.mounted (state (destroy opts w)) = false /\
  State.pinned (state (destroy opts w)) = State.pinned (state w).
Proof.
  intros Hn w.
  assert (M : State.mounted (state w) = true).
  { subst w. rewrite (run_mounted _ Hn). unfold created.
    now rewrite emit_state. }
  split; [exact M |]. split; [intros _; exact M |].
  rewrite destroy_state. now split.
Qed.

(** *** Rendering while pinned *)





(** *** The two y sequences of the row loop *)

Lemma skipn_nth_error (A : Type) (n : nat) (l : list A) :
  skipn n l = match nth_error l n with
              | Some x => x :: skipn (S n) l
              | None => []
              end.
Proof.
  revert l. induction n as [| n IH]; intros [| x l]; try reflexivity.
  simpl nth_error. rewrite <- IH. reflexivity.
Qed.

Let resolved' :=
  resolved SnapToValue Closest snap_truthy findDataIdx snapToValues
    interpolationValue.
Let yValue' :=
  yValue SnapToValue Closest snap_truthy findDataIdx snapToValues
    interpolationValue.
Let skipped' :=
  skipped SnapToValue Closest snap_truthy findDataIdx opts snapToValues
    interpolationValue.

Lemma rowLoop_sequences data idx rest :
  forall l l', rowLoop' data idx rest l = Ok l' ->
  let shown :=
    filter (fun sd => Series.show (fst sd)) (combine rest (skipn (i l) data)) in
  let emitted := filter (fun sd => negb (skipped' idx sd)) shown in
  ys l' = ys l ++ map (yValue' idx) shown /\
  rowYs l' = rowYs l ++ map (realY idx) emitted /\
  map Row.y (rows l') = map Row.y (rows l) ++ map (yValue' idx) emitted.
Proof.
  induction rest as [| serie rest IH]; intros l l' H.
  - simpl in H. inversion H; subst. simpl. now rewrite !app_nil_r.
  - rewrite rowLoop_step in H. cbv zeta.
    rewrite (skipn_nth_error _ (i l) data).
    destruct (Series.show serie) eqn:Hs; simpl negb in H; cbv iota in H.
    + destruct (nth_error data (i l)) as [data_i |]; [| discriminate].
      cbv zeta in H. simpl combine. simpl filter. rewrite Hs. simpl filter.
      fold skipped' in H. fold yValue' in H. fold resolved' in H.
      destruct (skipped' idx (serie, data_i)) eqn:Hk.
      * apply IH in H. cbv zeta in H. simpl in H. simpl.
        destruct H as (A & B & C). rewrite A, B, C, <- app_assoc. now repeat split.
      * apply IH in H. cbv zeta in H. simpl in H. simpl.
        destruct H as (A & B & C).
        rewrite A, B, C, map_app, <- !app_assoc. now repeat split.
    + apply IH in H. cbv zeta in H. simpl i in H.
      destruct H as (A & B & C).
      destruct (nth_error data (i l)) as [data_i |] eqn:Hn.
      * simpl combine. simpl filter. rewrite Hs. now repeat split.
      * assert (E : skipn (S (i l)) data = []).
        { rewrite skipn_nth_error.
          assert (N : nth_error data (S (i l)) = None).
          { apply nth_error_None. apply nth_error_None in Hn. lia. }
          now rewrite N. }
        rewrite E in A, B, C.
        replace (combine rest []) with (@nil (Series.t * list jsval)) in A, B, C
          by now destruct rest.
        simpl in *. now repeat split.
Qed.

(** C9, amended: every series the loop does not pass over contributes its
    y-equivalent to [ys], whether or not a row is emitted for it; the
    selection is applied to [rowYs], which holds the plotted sample of the
    emitted rows only, one per row, and never reads [ys]. *)
Theorem skipped_series_reach_ys_not_rowYs
    (data : list (list jsval)) (idx : Z) (series : list Series.t) (l : Locals) :
  buildRows' data idx series = Ok l ->
  let shown := shownSeries data series in
  let emitted := filter (fun sd => negb (skipped' idx sd)) shown in
  ys l = map (yValue' idx) shown /\
  rowYs l = map (realY idx) emitted /\
  map Row.y (rows l) = map (yValue' idx) emitted /\
  List.length (rowYs l) = List.length (rows l) /\
  (forall cursorValue ys',
     highlight' cursorValue (mkLocals (rows l) (sum l) (i l) ys' (rowYs l)) =
     highlight' cursorValue l).
Proof.
  intros H.
  pose proof (rowLoop_sequences _ _ _ _ _ H) as (A & B & C).
  pose proof (buildRows_invariant _ _ _ _ H) as (_ & L & _).
  cbv zeta. unfold shownSeries. simpl in A, B, C.
  repeat split; auto.
Qed.

End CursorFacts.

(** ** The properties on the sample charts *)


(** Tracking disabled, highlighting off: the rows are rendered unflagged. *)
Example untracked_rows_are_rendered :
  map (fun call => map Row.active (rc_rows call))
    (renders (fst (sample_setCursor untracked two_lines (created untracked))))
  = [[false; false]].
Proof. reflexivity. Qed.

(** C3: with tracking disabled and highlighting left on (the default), the
    cursor update over [two_lines] builds its two rows, shows the tooltip
    and then throws at [rows[activeIndex].active = true]: [activeIndex] is
    [i - 1 = 2], and [rows] has the indices 0 and 1.  No row sequence comes
    out of it: nothing is rendered, no render closure is stored. *)
Theorem tracking_disabled_update_throws :
  let o := with_tracking Tracking.Other (defaults true) in
  let r := sample_setCursor o two_lines (created o) in
  Opts.highlightLines o = true /\
  (exists l, sample_buildRows o two_lines = Ok l /\
             map Row.name (rows l) = ["a"; "b"]%string /\ i l = 3%nat) /\
  snd r = Throws "TypeError: rows[activeIndex] is undefined" /\
  State.visible (state (fst r)) = true /\
  renders (fst r) = [] /\
  renderTooltipCloses (fst r) = None.
Proof.
  cbv zeta. split; [reflexivity |]. split.
  - eexists. repeat split; reflexivity.
  - repeat split; reflexivity.
Qed.

(** The update over [two_lines] with tracking disabled. *)
Lemma tracking_disabled_flags_no_row_witness :
  Opts.tracking untracked = Tracking.Other /\
  exists calls,
    renders (fst (sample_setCursor untracked two_lines (created untracked))) =
      renders (created untracked) ++ calls /\
    Forall (fun call => inactive (rc_rows call)) calls.
Proof.
  split; [reflexivity |].
  exact (proj2 (tracking_disabled_flags_no_row SnapPolicy SnapClosest
                  (fun _ => true) sample_findDataIdx sample_findInRange
                  sample_findSticky untracked SnapUndefined VNull
                  two_lines (created untracked) eq_refl)).
Defined.

(** C2, as stated, fails: a click pins the tooltip, [destroy()] then clears
    [mounted] and leaves [pinned] set. *)
Lemma pinned_survives_destroy :
  let w := sample_run (defaults true) [MouseDown 5; MouseUp 5; Destroy]
             (created (defaults true)) in
  State.pinned (state w) = true /\ State.mounted (state w) = false.
Proof. split; reflexivity. Qed.

(** A click pins the tooltip; it is still mounted, until [destroy()]. *)
Lemma pinned_implies_mounted_until_destroy_witness :
  let w := sample_run (defaults true) [MouseDown 5; MouseUp 5]
             (created (defaults true)) in
  State.pinned (state w) = true /\ State.mounted (state w) = true /\
  State.mounted (state (destroy (defaults true) w)) = false.
Proof.
  pose proof (pinned_implies_mounted_until_destroy SnapPolicy SnapClosest
                (fun _ => true) sample_findDataIdx sample_findInRange
                sample_findSticky (defaults true) SnapUndefined VNull
                [MouseDown 5; MouseUp 5]) as H.
  assert (Hn : ~ In Destroy [MouseDown 5; MouseUp 5]).
  { simpl. intros [H1 | [H1 | []]]; discriminate H1. }
  destruct (H Hn) as (M & _ & D & _).
  split; [reflexivity | split; [exact M | exact D]].
Defined.

(** C6, as stated, fails: on the pinned tooltip a cursor update over a chart
    whose lines are all switched off builds no row and does not hide; the
    tooltip stays as it was, visible. *)
Lemma pinned_tooltip_is_not_hidden_on_empty_rows :
  sample_buildRows (defaults true) all_invisible = Ok (mkLocals [] 0 3 [] []) /\
  State.pinned (state pinned_tooltip) = true /\
  let w' := fst (sample_setCursor (defaults true) all_invisible pinned_tooltip) in
  w' = pinned_tooltip /\
  State.visible (state w') = true /\ display w' = DisplayBlock.
Proof.
  split; [vm_compute; reflexivity |]. split; [vm_compute; reflexivity |].
  cbv zeta. split; [vm_compute; reflexivity |].
  split; vm_compute; reflexivity.
Qed.

(** The unpinned, visible tooltip is hidden by an update without rows. *)
Lemma empty_rows_hide_unless_pinned_witness :
  let w' := fst (sample_setCursor (defaults true) all_invisible shown) in
  State.visible (state shown) = true /\
  State.visible (state w') = false /\ display w' = DisplayNone /\
  renders w' = renders shown.
Proof.
  pose proof (empty_rows_hide_unless_pinned SnapPolicy SnapClosest
                (fun _ => true) sample_findDataIdx sample_findInRange
                sample_findSticky (defaults true) SnapUndefined VNull
                all_invisible shown
                [xs; [VNum 5; VNum 7; VNum 9]; [VNum 1; VNum 3; VNum 4]]
                1 30 xs (mkLocals [] 0 3 [] [])
                eq_refl eq_refl eq_refl eq_refl eq_refl eq_refl eq_refl)
    as (_ & R & _ & _ & H).
  destruct (H eq_refl) as (V & D & _).
  split; [reflexivity | split; [exact V | split; [exact D | exact R]]].
Defined.


(** C9, as stated, fails: line [a] is switched on and opts out of the
    tooltip; its y-equivalent 7 is pushed to [ys] but not to [rowYs], the
    sequence the selection is applied to. *)
Lemma opted_out_series_is_missing_from_rowYs :
  let a := (line "a" true (Some false), [VNum 5; VNum 7; VNum 9]) in
  let b := (line "b" true None, [VNum 1; VNum 3; VNum 4]) in
  shownSeries [xs; snd a; snd b] (series one_opted_out) = [a; b] /\
  skipped SnapPolicy SnapClosest (fun _ => true) sample_findDataIdx
    (defaults true) SnapUndefined VNull 1 a = true /\
  yValue SnapPolicy SnapClosest (fun _ => true) sample_findDataIdx
    SnapUndefined VNull 1 a = VNum 7 /\
  exists l,
    sample_buildRows (defaults true) one_opted_out = Ok l /\
    ys l = [VNum 7; VNum 3] /\
    rowYs l = [VNum 3] /\
    ~ In (VNum 7) (rowYs l).
Proof.
  repeat split.
  eexists. split; [reflexivity |]. repeat split.
  simpl. intros [H | []]. discriminate H.
Qed.

(** The two sequences on the chart with one line opted out. *)
Lemma skipped_series_reach_ys_not_rowYs_witness :
  let l := mkLocals [Row.mk "b" (VNum 3) "3" (VNum 3) "#000" false None]
             10 3 [VNum 7; VNum 3] [VNum 3] in
  sample_buildRows (defaults true) one_opted_out = Ok l /\
  List.length (rowYs l) = List.length (rows l) /\
  List.length (ys l) = 2%nat.
Proof.
  split; [reflexivity |].
  destruct (skipped_series_reach_ys_not_rowYs SnapPolicy SnapClosest
              (fun _ => true) sample_findDataIdx sample_findInRange
              sample_findSticky (defaults true) SnapUndefined VNull
              [xs; [VNum 5; VNum 7; VNum 9]; [VNum 1; VNum 3; VNum 4]] 1
              (series one_opted_out)
              (mkLocals [Row.mk "b" (VNum 3) "3" (VNum 3) "#000" false None]
                 10 3 [VNum 7; VNum 3] [VNum 3])
              eq_refl) as (Y & _ & _ & L & _).
  split; [exact L |]. cbv zeta. rewrite Y. reflexivity.
Defined.

(** * Further properties of the tooltip *)

(** ** The overlay follows the state *)

Section Consistency.
Variable opts : Opts.t.

Lemma consistent_created : consistent opts (created opts).
Proof.
  unfold consistent, created, emit.
  destruct (Opts.onStateChange opts); simpl; auto.
Qed.

Lemma consistent_show w : consistent opts w -> consistent opts (show opts w).
Proof.
  destruct w as [[p c v m] d pc a h dl ol cl r lg].
  unfold consistent, show, emit. simpl. intros (_ & H2 & H3).
  destruct v, (Opts.onStateChange opts); simpl; auto.
Qed.

Lemma consistent_hide w : consistent opts w -> consistent opts (hide opts w).
Proof.
  destruct w as [[p c v m] d pc a h dl ol cl r lg].
  unfold consistent, hide, emit. simpl. intros (_ & H2 & H3).
  destruct v, (Opts.onStateChange opts); simpl; auto.
Qed.

Lemma consistent_pin b w : consistent opts w -> consistent opts (pin opts b w).
Proof.
  destruct w as [[p c v m] d pc a h dl ol cl r lg].
  unfold consistent, pin, emit. simpl. intros (H1 & H2 & H3).
  destruct b, (Opts.onStateChange opts), (Opts.render_is_default opts) eqn:R;
    simpl; rewrite ?andb_false_r in *; auto.
Qed.

Lemma consistent_call w :
  consistent opts w -> consistent opts (callRenderTooltipCloses opts w).
Proof.
  destruct w as [[p c v m] d pc a h dl ol cl r lg].
  unfold consistent, callRenderTooltipCloses, emit. simpl.
  destruct cl, (Opts.onStateChange opts); simpl; auto.
Qed.

Lemma consistent_through_ui w w' :
  through_ui opts w w' -> consistent opts w -> consistent opts w'.
Proof.
  induction 1 as [| w' _ IH | w' _ IH | w' c _ IH | w' _ IH]; intros Hc.
  - exact Hc.
  - now apply consistent_show, IH.
  - now apply consistent_hide, IH.
  - apply IH in Hc. exact Hc.
  - now apply consistent_call, IH.
Qed.

Lemma consistent_onMouseUp x w :
  consistent opts w -> consistent opts (onMouseUp opts x w).
Proof.
  intros H. unfold onMouseUp. destruct (_ && _); [| exact H].
  now apply consistent_call, consistent_show, consistent_pin.
Qed.

Lemma consistent_destroy w :
  consistent opts w -> consistent opts (destroy opts w).
Proof.
  destruct w as [[p c v m] d pc a h dl ol cl r lg].
  unfold consistent, destroy, emit. simpl.
  destruct (Opts.onStateChange opts); simpl; auto.
Qed.

Lemma consistent_detectClickOutside t w :
  consistent opts w -> consistent opts (detectClickOutside opts t w).
Proof.
  intros H. unfold detectClickOutside.
  destruct (isElement t); [| exact H].
  destruct (_ && _); [| exact H].
  now apply consistent_hide, consistent_pin.
Qed.

End Consistency.

Section MachineFacts.
Variable SnapToValue : Type.
Variable Closest : SnapToValue.
Variable snap_truthy : SnapToValue -> bool.
Variable findDataIdx :
  list jsval -> Series.t -> Z -> option SnapToValue -> jsval -> Z.
Variable findInRange : list jsval -> Z -> bool -> option nat.
Variable findSticky : list jsval -> Z -> option nat.
Variable opts : Opts.t.
Variable snapToValues : SnapOption SnapToValue.
Variable interpolationValue : jsval.

Let setCursor' :=
  setCursor SnapToValue Closest snap_truthy findDataIdx findInRange findSticky
    opts snapToValues interpolationValue.
Let step' :=
  step SnapToValue Closest snap_truthy findDataIdx findInRange findSticky
    opts snapToValues interpolationValue.
Let run' :=
  run SnapToValue Closest snap_truthy findDataIdx findInRange findSticky
    opts snapToValues interpolationValue.

(** [setCursor] acts on the tooltip through [show()], [hide()], the
    assignment of the closure and its call only. *)
Lemma setCursor_through_ui u w : through_ui opts w (fst (setCursor' u w)).
Proof.
  unfold setCursor', setCursor, onMouseEnter, onMouseLeave.
  set (w1 := if _ && negb (State.pinned (state w)) then hide opts w else w).
  assert (H1 : through_ui opts w w1).
  { subst w1. destruct (_ && _); [apply ui_hide |]; apply ui_none. }
  clearbody w1.
  destruct (data u) as [d |]; [| exact H1].
  destruct (idx (cursor u)) as [k |]; [| exact H1].
  destruct (top (cursor u)) as [t |]; [| exact H1].
  destruct (negb (isChartInViewPort u)); [exact H1 |].
  destruct (nth_error d 0) as [d0 |]; [| exact H1].
  destruct (buildRows _ _ _ _ _ _ _ d k (series u)) as [l | m]; [| exact H1].
  destruct (rows l) as [| r rs].
  - simpl. destruct (negb (State.pinned (state w1))); [now apply ui_hide | exact H1].
  - destruct (highlight _ _ _ _ l) as [rows' | m]; simpl.
    + match goal with
      | |- through_ui _ _ (fst (if ?b then _ else _)) => destruct b
      end; simpl.
      * now apply ui_closure, ui_show.
      * now apply ui_call, ui_closure, ui_show.
    + now apply ui_show.
Qed.

Lemma consistent_step e w :
  consistent opts w -> consistent opts (fst (step' e w)).
Proof.
  intros H. destruct e; simpl; auto.
  - now apply consistent_show.
  - now apply consistent_hide.
  - now apply consistent_pin.
  - destruct (overListeners w); [| exact H].
    destruct w as [[p c v m] d pc a h dl ol cl r lg]. exact H.
  - destruct (overListeners w); [| exact H]. now apply consistent_onMouseUp.
  - destruct (overListeners w); [| exact H]. now apply consistent_show.
  - destruct (overListeners w); [| exact H]. unfold onMouseLeave.
    destruct (negb _); [now apply consistent_hide | exact H].
  - destruct (documentListeners w); [| exact H].
    now apply consistent_detectClickOutside.
  - apply (consistent_through_ui opts w); [apply setCursor_through_ui | exact H].
  - now apply consistent_destroy.
Qed.

Lemma consistent_run events :
  forall w, consistent opts w -> consistent opts (run' events w).
Proof.
  induction events as [| e events IH]; intros w H; [exact H |].
  simpl. apply IH. now apply consistent_step.
Qed.

(** X1: in every state reached from the created tooltip, whatever the
    events (destroy included), the overlay is displayed exactly when
    [state.visible] is true. *)
Theorem display_follows_visible (events : list Event) :
  let w := run' events (created opts) in
  display w = (if State.visible (state w) then DisplayBlock else DisplayNone).
Proof.
  apply (consistent_run events (created opts) (consistent_created opts)).
Qed.

(** X2: in every state reached from the created tooltip the overlay carries
    the pinned class exactly when [state.pinned] is true, and the document
    listeners ([checkFocus], [detectClickOutside]) are registered exactly
    when it is pinned and the renderer is the default one. *)
Theorem pinned_class_and_listeners_follow_pinned (events : list Event) :
  let w := run' events (created opts) in
  pinnedClass w = State.pinned (state w) /\
  documentListeners w = State.pinned (state w) && Opts.render_is_default opts.
Proof.
  apply (consistent_run events (created opts) (consistent_created opts)).
Qed.

End MachineFacts.

(** ** Clicks, pins and teardown *)

Section PinFacts.
Variable opts : Opts.t.

(** X3: a pointer-up changes nothing unless pinning is enabled and its
    coordinate is the recorded pointer-down coordinate: a drag, or a release
    without a recorded press, never toggles. *)
Theorem onMouseUp_ignores_drag (clientX : Z) (w : Tooltip) :
  Opts.pinable opts = false \/ State.clickStartedX (state w) <> Some clientX ->
  onMouseUp opts clientX w = w.
Proof.
  intros [H | H]; unfold onMouseUp; [now rewrite H |].
  destruct (State.clickStartedX (state w)) as [x0 |]; simpl;
    [| now rewrite andb_false_r].
  destruct (Z.eqb_spec x0 clientX) as [-> | _]; [now elim H |].
  now rewrite !andb_false_r.
Qed.

(** X4: with pinning enabled, a pointer-up at the recorded non-zero
    coordinate toggles [pinned] and shows the tooltip; the recorded
    coordinate is kept, so a second pointer-up there toggles back. *)
Theorem onMouseUp_click_toggles (clientX : Z) (w : Tooltip) :
  Opts.pinable opts = true ->
  State.clickStartedX (state w) = Some clientX -> clientX <> 0 ->
  let w' := onMouseUp opts clientX w in
  State.pinned (state w') = negb (State.pinned (state w)) /\
  State.visible (state w') = true /\
  State.clickStartedX (state w') = Some clientX /\
  State.pinned (state (onMouseUp opts clientX w')) = State.pinned (state w).
Proof.
  intros Hp Hc Hx.
  assert (G : forall v, State.clickStartedX (state v) = Some clientX ->
              Opts.pinable opts && isClick (State.clickStartedX (state v)) clientX
              = true).
  { intros v Hv. rewrite Hp, Hv. simpl. rewrite Z.eqb_refl.
    destruct (Z.eqb_spec clientX 0); [contradiction | reflexivity]. }
  cbv zeta.
  assert (S1 : state (onMouseUp opts clientX w) =
               set_visible true
                 (set_pinned (negb (State.pinned (state w))) (state w))).
  { rewrite onMouseUp_state. now rewrite (G w Hc). }
  assert (C1 : State.clickStartedX (state (onMouseUp opts clientX w))
               = Some clientX) by now rewrite S1.
  repeat split.
  - now rewrite S1.
  - now rewrite S1.
  - exact C1.
  - rewrite onMouseUp_state, (G _ C1), S1. simpl. apply negb_involutive.
Qed.

(** X5: [pin(true)] followed by [pin(false)], on an unpinned tooltip,
    leaves [state], the pinned class, the number of holder layers, the
    registration of the document listeners, the overlay's display and the
    render closure as they were, and renders nothing; the callback hears
    [pin], then [unpin].  (Which holder layer goes, and the height that
    [pin(true)] fixes on the row list, are outside this statement.) *)
Theorem pin_unpin_round_trip (w : Tooltip) :
  consistent opts w -> State.pinned (state w) = false ->
  let w' := pin opts false (pin opts true w) in
  state w' = state w /\
  pinnedClass w' = pinnedClass w /\
  pointsHolders w' = pointsHolders w /\
  documentListeners w' = documentListeners w /\
  display w' = display w /\
  renderTooltipCloses w' = renderTooltipCloses w /\
  renders w' = renders w /\
  map fst (log w') =
    map fst (log w) ++
    (if Opts.onStateChange opts then [Action.pin; Action.unpin] else []).
Proof.
  destruct w as [[p c v m] d pc a h dl ol cl r lg].
  unfold consistent, pin, emit. simpl.
  intros (_ & -> & ->) ->. simpl.
  destruct (Opts.onStateChange opts), (Opts.render_is_default opts); simpl;
    rewrite ?map_app, ?app_nil_r, <- ?app_assoc; repeat split; reflexivity.
Qed.

(** X6: every [pin(true)] appends a holder layer, also on a tooltip that
    is pinned already, and [pin(false)] removes one: after [n] calls of
    [pin(true)] and one [pin(false)] the tooltip is unpinned with [n - 1]
    holder layers more than before. *)
Theorem repeated_pin_stacks_holders (n : nat) (w : Tooltip) :
  let w' := pin opts false (Nat.iter n (pin opts true) w) in
  State.pinned (state w') = false /\
  pointsHolders w' = Nat.pred (n + pointsHolders w).
Proof.
  cbv zeta. split; [now rewrite pin_state |].
  assert (H : pointsHolders (Nat.iter n (pin opts true) w)
              = (n + pointsHolders w)%nat).
  { induction n as [| n IH]; [reflexivity |].
    simpl Nat.iter. unfold pin at 1. unfold emit.
    destruct (Opts.onStateChange opts); simpl; now rewrite IH. }
  unfold pin at 1. unfold emit.
  destruct (Opts.onStateChange opts); simpl; now rewrite H.
Qed.

(** X7: a document click unpins and hides the tooltip exactly when its
    target is an element outside both the overlay and the chart; any other
    target leaves the tooltip as it is.  It never renders. *)
Theorem detectClickOutside_effect (target : ClickTarget) (w : Tooltip) :
  let w' := detectClickOutside opts target w in
  renders w' = renders w /\
  if isElement target && negb (insideTooltip target) && negb (insideOver target)
  then State.pinned (state w') = false /\ State.visible (state w') = false /\
       display w' = DisplayNone
  else w' = w.
Proof.
  cbv zeta. split; [apply detectClickOutside_renders |].
  unfold detectClickOutside.
  destruct (isElement target); simpl; [| reflexivity].
  destruct (negb (insideTooltip target) && negb (insideOver target));
    [| reflexivity].
  destruct (hide_state opts (pin opts false w)) as [-> ->].
  now rewrite pin_state.
Qed.

End PinFacts.

Lemma onMouseUp_ignores_drag_witness :
  let w := onMouseDown 5 (created (defaults true)) in
  State.clickStartedX (state w) = Some 5 /\
  onMouseUp (defaults true) 9 w = w.
Proof.
  split; [reflexivity |].
  apply onMouseUp_ignores_drag. right. discriminate.
Defined.

Lemma onMouseUp_click_toggles_witness :
  let w := onMouseDown 5 (created (defaults true)) in
  State.pinned (state (onMouseUp (defaults true) 5 w)) = true /\
  State.pinned
    (state (onMouseUp (defaults true) 5 (onMouseUp (defaults true) 5 w)))
  = false.
Proof.
  destruct (onMouseUp_click_toggles (defaults true) 5
              (onMouseDown 5 (created (defaults true)))
              eq_refl eq_refl ltac:(discriminate)) as (A & _ & _ & B).
  split; [exact A | exact B].
Defined.

Lemma pin_unpin_round_trip_witness :
  let w' := pin (defaults true) false (pin (defaults true) true shown) in
  state w' = state shown /\ pointsHolders w' = pointsHolders shown /\
  documentListeners w' = false.
Proof.
  assert (C : consistent (defaults true) shown)
    by (repeat split; reflexivity).
  destruct (pin_unpin_round_trip (defaults true) shown C eq_refl)
    as (S & _ & H & D & _).
  split; [exact S | split; [exact H | exact D]].
Defined.

Section TeardownFacts.
Variable SnapToValue : Type.
Variable Closest : SnapToValue.
Variable snap_truthy : SnapToValue -> bool.
Variable findDataIdx :
  list jsval -> Series.t -> Z -> option SnapToValue -> jsval -> Z.
Variable findInRange : list jsval -> Z -> bool -> option nat.
Variable findSticky : list jsval -> Z -> option nat.
Variable opts : Opts.t.
Variable snapToValues : SnapOption SnapToValue.
Variable interpolationValue : jsval.

Let step' :=
  step SnapToValue Closest snap_truthy findDataIdx findInRange findSticky
    opts snapToValues interpolationValue.
Let run' :=
  run SnapToValue Closest snap_truthy findDataIdx findInRange findSticky
    opts snapToValues interpolationValue.

Lemma destroy_overListeners w : overListeners (destroy opts w) = false.
Proof.
  unfold destroy, emit. now destruct (Opts.onStateChange opts).
Qed.

(** X8: [destroy()] removes the four listeners on the chart: whatever
    presses, releases, enters and leaves follow, the destroyed tooltip stays
    exactly as [destroy()] left it. *)
Theorem destroyed_ignores_pointer_events (events : list Event) (w : Tooltip) :
  forallb over_event events = true ->
  run' events (destroy opts w) = destroy opts w.
Proof.
  pose proof (destroy_overListeners w) as Ho.
  induction events as [| e events IH]; intros H; [reflexivity |].
  simpl in H. apply andb_true_iff in H. destruct H as [He Hes].
  simpl. destruct e; try discriminate He; simpl; rewrite Ho; now apply IH.
Qed.

(** X9: [destroy()] does not detach the document listeners of a pinned
    tooltip: a click outside after [destroy()] still unpins and hides it,
    and the callback is notified of [unpin] and [hide] after [destroy]. *)
Theorem document_click_after_destroy (w : Tooltip) :
  documentListeners w = true -> Opts.onStateChange opts = true ->
  let w' := fst (step' (DocumentMouseDown outside) (destroy opts w)) in
  State.mounted (state w') = false /\
  State.pinned (state w') = false /\
  State.visible (state w') = false /\
  map fst (log w') =
    map fst (log w) ++ [Action.destroy; Action.unpin; Action.hide]
    ++ (if State.visible (state w) then [Action.show] else []).
Proof.
  destruct w as [[p c v m] d pc a h dl ol cl r lg]. simpl.
  intros -> Hcb. unfold destroy, detectClickOutside, hide, pin, emit.
  rewrite Hcb. simpl.
  destruct v; simpl; rewrite !map_app, <- !app_assoc; simpl; now repeat split.
Qed.

(** X10: nothing sets [mounted] again: from a state with [mounted] false,
    no sequence of events leads to a state with [mounted] true. *)
Theorem mounted_never_returns (events : list Event) (w : Tooltip) :
  State.mounted (state w) = false ->
  State.mounted (state (run' events w)) = false.
Proof.
  revert w. induction events as [| e events IH]; intros w H; [exact H |].
  simpl. apply IH.
  destruct e;
    try (unfold step'; rewrite step_mounted; [exact H | discriminate]).
  simpl. now rewrite destroy_state.
Qed.

End TeardownFacts.

Lemma destroyed_ignores_pointer_events_witness :
  sample_run (defaults true) [MouseEnter; MouseDown 5; MouseUp 5; MouseLeave]
    (destroy (defaults true) shown)
  = destroy (defaults true) shown.
Proof.
  apply (destroyed_ignores_pointer_events SnapPolicy SnapClosest (fun _ => true)
           sample_findDataIdx sample_findInRange sample_findSticky
           (defaults true) SnapUndefined VNull).
  reflexivity.
Defined.

Lemma document_click_after_destroy_witness :
  let w' := fst (sample_step (defaults true) (DocumentMouseDown outside)
                   (destroy (defaults true) pinned_tooltip)) in
  State.pinned (state pinned_tooltip) = true /\
  State.pinned (state w') = false /\ State.visible (state w') = false.
Proof.
  split; [reflexivity |].
  destruct (document_click_after_destroy SnapPolicy SnapClosest (fun _ => true)
              sample_findDataIdx sample_findInRange sample_findSticky
              (defaults true) SnapUndefined VNull pinned_tooltip
              eq_refl eq_refl) as (_ & P & V & _).
  split; [exact P | exact V].
Defined.

Lemma mounted_never_returns_witness :
  State.mounted
    (state (sample_run (defaults true)
              [CallShow; CallPin true; SetCursor two_lines; MouseDown 5; MouseUp 5]
              (destroy (defaults true) shown)))
  = false.
Proof.
  apply (mounted_never_returns SnapPolicy SnapClosest (fun _ => true)
           sample_findDataIdx sample_findInRange sample_findSticky
           (defaults true) SnapUndefined VNull).
  reflexivity.
Defined.

(** ** The cursor update *)

Section UpdateFacts.
Variable SnapToValue : Type.
Variable Closest : SnapToValue.
Variable snap_truthy : SnapToValue -> bool.
Variable findDataIdx :
  list jsval -> Series.t -> Z -> option SnapToValue -> jsval -> Z.
Variable findInRange : list jsval -> Z -> bool -> option nat.
Variable findSticky : list jsval -> Z -> option nat.
Variable opts : Opts.t.
Variable snapToValues : SnapOption SnapToValue.
Variable interpolationValue : jsval.

Let rowLoop' :=
  rowLoop SnapToValue Closest snap_truthy findDataIdx opts snapToValues
    interpolationValue.
Let buildRows' :=
  buildRows SnapToValue Closest snap_truthy findDataIdx opts snapToValues
    interpolationValue.
Let highlight' := highlight findInRange findSticky opts.
Let scheduled' :=
  scheduled SnapToValue Closest snap_truthy findDataIdx findInRange findSticky
    opts snapToValues interpolationValue.
Let setCursor' :=
  setCursor SnapToValue Closest snap_truthy findDataIdx findInRange findSticky
    opts snapToValues interpolationValue.
Let resolved' :=
  resolved SnapToValue Closest snap_truthy findDataIdx snapToValues
    interpolationValue.
Let skipped' :=
  skipped SnapToValue Closest snap_truthy findDataIdx opts snapToValues
    interpolationValue.
Let rowData' :=
  rowData SnapToValue Closest snap_truthy findDataIdx opts snapToValues
    interpolationValue.
Let emittedSeries' :=
  emittedSeries SnapToValue Closest snap_truthy findDataIdx opts snapToValues
    interpolationValue.
Let shownAddends' :=
  shownAddends SnapToValue Closest snap_truthy findDataIdx snapToValues
    interpolationValue.

(** X11: without data, without an index or a vertical position, or with
    the chart out of the viewport, a cursor update returns without building
    rows: all it may do is the [hide()] of an unpinned tooltip when the
    cursor is off the plot. *)
Theorem setCursor_without_data (u : UPlot) (w : Tooltip) :
  data u = None \/ idx (cursor u) = None \/ top (cursor u) = None \/
  isChartInViewPort u = false ->
  setCursor' u w =
  (if ((left (cursor u) <? 0)
       || match top (cursor u) with Some t => t <? 0 | None => false end)
      && negb (State.pinned (state w))
   then hide opts w else w,
   Returns).
Proof.
  unfold setCursor', setCursor.
  intros [H | [H | [H | H]]].
  - now rewrite H.
  - rewrite H. now destruct (data u).
  - rewrite H. now destruct (data u), (idx (cursor u)).
  - rewrite H. now destruct (data u), (idx (cursor u)), (top (cursor u)).
Qed.

(** *** The row loop *)

Lemma rowLoop_ok data idx rest :
  forall l l',
    rowLoop' data idx rest l = Ok l' ->
    forall j serie, nth_error rest j = Some serie ->
                    Series.show serie = true ->
                    (i l + j < List.length data)%nat.
Proof.
  induction rest as [| serie rest IH]; intros l l' H j s Hj Hsh;
    [now destruct j |].
  unfold rowLoop' in H. rewrite rowLoop_step in H. fold rowLoop' in H.
  destruct (Series.show serie) eqn:Hs; simpl negb in H; cbv iota in H.
  - destruct (nth_error data (i l)) as [data_i |] eqn:Hn; [| discriminate].
    cbv zeta in H.
    assert (Hlt : (i l < List.length data)%nat)
      by (apply nth_error_Some; congruence).
    destruct j as [| j]; [lia |]. simpl in Hj.
    destruct (skipped _ _ _ _ _ _ _ _ _);
      specialize (IH _ _ H j s Hj Hsh); simpl in IH; lia.
  - destruct j as [| j].
    + simpl in Hj. inversion Hj; subst. congruence.
    + simpl in Hj. specialize (IH _ _ H j s Hj Hsh). simpl in IH. lia.
Qed.

(** X13: the row builder throws whenever a series after the first that is
    switched on has no data array at its index: the loop does not get past
    reading the missing array. *)
Theorem buildRows_throws_without_data
    (data : list (list jsval)) (idx : Z) (series : list Series.t)
    (k : nat) (serie : Series.t) :
  (1 <= k)%nat -> nth_error series k = Some serie ->
  Series.show serie = true -> (List.length data <= k)%nat ->
  exists m, buildRows' data idx series = Raise m.
Proof.
  intros Hk Hn Hs Hd.
  destruct (buildRows' data idx series) as [l | m] eqn:E; [| now exists m].
  exfalso. unfold buildRows', buildRows in E. fold rowLoop' in E.
  destruct k as [| k]; [lia |].
  assert (Hn' : nth_error (skipn 1 series) k = Some serie)
    by (destruct series; [now destruct k | exact Hn]).
  pose proof (rowLoop_ok _ _ _ _ _ E k serie Hn' Hs) as H. simpl in H. lia.
Qed.

Lemma rowLoop_rows_sum data idx rest :
  forall l l', rowLoop' data idx rest l = Ok l' ->
  let shown :=
    filter (fun sd => Series.show (fst sd)) (combine rest (skipn (i l) data)) in
  rows l' =
    rows l ++ map (rowData' idx)
                (filter (fun sd => negb (skipped' idx sd)) shown) /\
  sum l' =
    (if Opts.total opts
     then sum l + fold_right Z.add 0
                    (map (fun sd => or_zero (resolved' idx sd)) shown)
     else sum l) /\
  i l' = (i l + List.length rest)%nat.
Proof.
  induction rest as [| serie rest IH]; intros l l' H.
  - simpl in H. inversion H; subst. simpl.
    rewrite app_nil_r. destruct (Opts.total opts); repeat split; lia.
  - unfold rowLoop' in H. rewrite rowLoop_step in H. fold rowLoop' in H.
    cbv zeta. rewrite (skipn_nth_error _ (i l) data).
    destruct (Series.show serie) eqn:Hs; simpl negb in H; cbv iota in H.
    + destruct (nth_error data (i l)) as [data_i |]; [| discriminate].
      cbv zeta in H. simpl combine. simpl filter. rewrite Hs. simpl filter.
      fold skipped' in H. fold resolved' in H.
      destruct (skipped' idx (serie, data_i)) eqn:Hk.
      * apply IH in H. cbv zeta in H. simpl in H. simpl.
        destruct H as (A & B & C). rewrite A, B, C.
        destruct (Opts.total opts); repeat split; lia.
      * apply IH in H. cbv zeta in H. simpl in H. simpl.
        destruct H as (A & B & C). rewrite A, B, C, <- app_assoc.
        destruct (Opts.total opts); repeat split; lia.
    + apply IH in H. cbv zeta in H. simpl i in H. simpl sum in H. simpl rows in H.
      destruct H as (A & B & C).
      destruct (nth_error data (i l)) as [data_i |] eqn:Hn.
      * simpl combine. simpl filter. rewrite Hs.
        rewrite A, B, C. simpl List.length. repeat split; lia.
      * assert (E : skipn (S (i l)) data = []).
        { rewrite skipn_nth_error.
          assert (N : nth_error data (S (i l)) = None).
          { apply nth_error_None. apply nth_error_None in Hn. lia. }
          now rewrite N. }
        rewrite E in A, B.
        replace (combine rest []) with (@nil (Series.t * list jsval)) in A, B
          by now destruct rest.
        simpl in *. rewrite A, B, C. repeat split; lia.
Qed.

Lemma fold_left_add (l : list Z) (a : Z) :
  fold_left Z.add l a = a + fold_right Z.add 0 l.
Proof.
  revert a. induction l as [| x l IH]; intros a; simpl; [lia |].
  rewrite IH. lia.
Qed.

(** X14: with the total enabled and integer samples whose running total
    stays where doubles add exactly, [sum] is the total, added in series
    order, of the numeric values of all series that are switched on, also of
    those left out of the rows (opted out of the tooltip, or hidden for lack
    of data); labels, [null] and [NaN] add 0.  With the total disabled it
    stays 0. *)
Theorem sum_counts_every_shown_series
    (data : list (list jsval)) (idx : Z) (series : list Series.t) (l : Locals) :
  buildRows' data idx series = Ok l ->
  adds_exactly (shownAddends' data idx series) ->
  sum l = if Opts.total opts
          then fold_left Z.add (shownAddends' data idx series) 0
          else 0.
Proof.
  intros H _. unfold buildRows', buildRows in H. fold rowLoop' in H.
  apply rowLoop_rows_sum in H. cbv zeta in H. simpl in H.
  destruct H as (_ & B & _). rewrite B, fold_left_add.
  unfold shownAddends', shownAddends, shownSeries. fold resolved'.
  now destruct (Opts.total opts).
Qed.

(** X15: the rows are the emitted series in declaration order, one row
    each, pushed without an [active] flag; a label never becomes a row's
    [originalValue] ([null] stands for it), and the loop counter ends at the
    number of series (at 1 when there is none). *)
Theorem rows_are_the_emitted_series
    (data : list (list jsval)) (idx : Z) (series : list Series.t) (l : Locals) :
  buildRows' data idx series = Ok l ->
  rows l = map (rowData' idx) (emittedSeries' data idx series) /\
  Forall (fun r => is_string (Row.originalValue r) = false) (rows l) /\
  i l = Nat.max 1 (List.length series).
Proof.
  intros H. unfold buildRows', buildRows in H. fold rowLoop' in H.
  apply rowLoop_rows_sum in H. cbv zeta in H. simpl in H.
  destruct H as (A & _ & C).
  split; [exact A | split].
  - rewrite A. apply Forall_map. apply Forall_forall. intros sd _.
    unfold rowData', rowData. simpl. unfold resolved.
    destruct (findValue _ _ _ _ _ _ _ _ _); reflexivity.
  - rewrite C. destruct series; simpl; lia.
Qed.

End UpdateFacts.

Lemma setCursor_without_data_witness :
  let u := mkUPlot (mkCursor (-10) (Some (-10)) None) (Some [xs]) [] true 0
             100 200 1000 150 in
  sample_setCursor (defaults true) u shown = (hide (defaults true) shown, Returns).
Proof.
  apply (setCursor_without_data SnapPolicy SnapClosest (fun _ => true)
           sample_findDataIdx sample_findInRange sample_findSticky
           (defaults true) SnapUndefined VNull).
  right. left. reflexivity.
Defined.

Lemma buildRows_throws_without_data_witness :
  exists m, sample_buildRows (defaults true) short_data = Raise m.
Proof.
  apply (buildRows_throws_without_data SnapPolicy SnapClosest (fun _ => true)
           sample_findDataIdx (defaults true) SnapUndefined VNull
           [xs; [VNum 5; VNum 7; VNum 9]] 1 (series short_data)
           2%nat (line "b" true None));
    [repeat constructor | reflexivity | reflexivity | simpl; lia].
Defined.

Lemma sum_counts_every_shown_series_witness :
  exists l, sample_buildRows (defaults true) one_opted_out = Ok l /\
            map Row.name (rows l) = ["b"%string] /\ sum l = 10.
Proof.
  eexists. split; [reflexivity |]. split; [reflexivity |].
  rewrite (sum_counts_every_shown_series SnapPolicy SnapClosest (fun _ => true)
             sample_findDataIdx (defaults true) SnapUndefined VNull
             [xs; [VNum 5; VNum 7; VNum 9]; [VNum 1; VNum 3; VNum 4]] 1
             (series one_opted_out) _ eq_refl).
  - reflexivity.
  - intros [| [| [| n]]]; unfold exact_integer; simpl; lia.
Defined.

Lemma rows_are_the_emitted_series_witness :
  exists l, sample_buildRows (defaults true) with_label = Ok l /\
            map Row.originalValue (rows l) = [VNull] /\
            map Row.value (rows l) = ["n/a"%string] /\
            i l = 3%nat.
Proof.
  eexists. split; [reflexivity |].
  destruct (rows_are_the_emitted_series SnapPolicy SnapClosest (fun _ => true)
              sample_findDataIdx (defaults true) SnapUndefined VNull
              [xs; [VNum 5; VNum 7; VNum 9]; [VNum 1; VStr "n/a"; VNum 4]] 1
              (series with_label) _ eq_refl) as (R & _ & I).
  split; [now rewrite R | split; [now rewrite R | exact I]].
Defined.

(** ** Highlighting and sorting *)

From Stdlib Require Import Permutation Sorted.

Lemma unflag_inactive rs : inactive rs -> map unflag rs = rs.
Proof.
  induction 1 as [| r rs Hr _ IH]; [reflexivity |].
  simpl. rewrite IH. f_equal. destruct r; simpl in *. now subst.
Qed.

Lemma update_at_set_active k rs :
  inactive rs -> (k < List.length rs)%nat ->
  map unflag (update_at k Row.set_active rs) = rs /\
  List.length (filter Row.active (update_at k Row.set_active rs)) = 1%nat.
Proof.
  intros H. revert k. induction H as [| r rs Hr Hrs IH]; intros k Hk;
    [simpl in Hk; lia |].
  destruct k as [| k]; simpl.
  - rewrite (unflag_inactive rs Hrs). split.
    + f_equal. destruct r; simpl in *. now subst.
    + assert (E : filter Row.active rs = []).
      { clear -Hrs. induction Hrs as [| x xs Hx _ IHx]; [reflexivity |].
        simpl. now rewrite Hx. }
      now rewrite E.
  - simpl in Hk. destruct (IH k ltac:(lia)) as [A B]. rewrite A, Hr. split.
    + f_equal. destruct r; simpl in *. now subst.
    + exact B.
Qed.

Lemma sort_insert_perm cmp x l : Permutation (sort_insert cmp x l) (x :: l).
Proof.
  induction l as [| y l IH]; simpl; [reflexivity |].
  destruct (cmp y x >? 0); [reflexivity |].
  rewrite IH. apply perm_swap.
Qed.

Lemma array_sort_perm cmp l : Permutation (array_sort cmp l) l.
Proof.
  unfold array_sort.
  assert (G : forall acc,
            Permutation
              (fold_left (fun sorted x => sort_insert cmp x sorted) l acc)
              (acc ++ l)).
  { induction l as [| x l IH]; intros acc; simpl.
    - now rewrite app_nil_r.
    - rewrite IH, sort_insert_perm. apply Permutation_middle. }
  apply (G []).
Qed.

Lemma sort_insert_sorted cmp x l :
  (forall a b, cmp a b > 0 -> cmp b a <= 0) ->
  Sorted (fun a b => cmp a b <= 0) l ->
  Sorted (fun a b => cmp a b <= 0) (sort_insert cmp x l).
Proof.
  intros Hc H. induction H as [| y l Hl IH Hh]; simpl.
  - repeat constructor.
  - destruct (Z.gtb_spec (cmp y x) 0) as [Hg | Hg].
    + constructor; [now constructor |]. constructor. apply Hc. lia.
    + constructor; [exact IH |].
      destruct l as [| z l]; simpl.
      * constructor. lia.
      * destruct (cmp z x >? 0); constructor; [lia |].
        now inversion Hh.
Qed.

(** The insertion sort [array_sort] reorders the rows and neither drops
    nor adds one; when the comparator never puts two rows each before the
    other, its result has no row directly followed by one that the
    comparator places before it. *)
Lemma array_sort_sorts (cmp : Row.t -> Row.t -> Z) (l : list Row.t) :
  (forall a b, cmp a b > 0 -> cmp b a <= 0) ->
  Permutation (array_sort cmp l) l /\
  Sorted (fun a b => cmp a b <= 0) (array_sort cmp l).
Proof.
  intros Hc. split; [apply array_sort_perm |].
  unfold array_sort.
  assert (G : forall acc, Sorted (fun a b => cmp a b <= 0) acc ->
            Sorted (fun a b => cmp a b <= 0)
              (fold_left (fun sorted x => sort_insert cmp x sorted) l acc)).
  { induction l as [| x l IH]; intros acc Ha; simpl; [exact Ha |].
    apply IH. now apply sort_insert_sorted. }
  apply G. constructor.
Qed.

Lemma filter_active_perm (l1 l2 : list Row.t) :
  Permutation l1 l2 ->
  Permutation (filter Row.active l1) (filter Row.active l2).
Proof.
  induction 1 as [| x l1' l2' P IH | x y l1' | l1' l2' l3' P1 IH1 P2 IH2];
    simpl.
  - constructor.
  - destruct (Row.active x); [apply perm_skip |]; exact IH.
  - destruct (Row.active x), (Row.active y); try reflexivity. apply perm_swap.
  - now transitivity (filter Row.active l2').
Qed.

Section HighlightFacts.
Variable SnapToValue : Type.
Variable Closest : SnapToValue.
Variable snap_truthy : SnapToValue -> bool.
Variable findDataIdx :
  list jsval -> Series.t -> Z -> option SnapToValue -> jsval -> Z.
Variable findInRange : list jsval -> Z -> bool -> option nat.
Variable findSticky : list jsval -> Z -> option nat.
Variable opts : Opts.t.
Variable snapToValues : SnapOption SnapToValue.
Variable interpolationValue : jsval.

Let buildRows' :=
  buildRows SnapToValue Closest snap_truthy findDataIdx opts snapToValues
    interpolationValue.
Let highlight' := highlight findInRange findSticky opts.
Let scheduled' :=
  scheduled SnapToValue Closest snap_truthy findDataIdx findInRange findSticky
    opts snapToValues interpolationValue.

Lemma highlight_effect cursorValue l rows' :
  loop_invariant l -> highlight' cursorValue l = Ok rows' ->
  map unflag rows' = rows l /\
  (List.length (filter Row.active rows') <= 1)%nat.
Proof.
  intros (Hin & _ & _). unfold highlight', highlight.
  assert (Z : map unflag (rows l) = rows l /\
              (List.length (filter Row.active (rows l)) <= 1)%nat).
  { split; [now apply unflag_inactive |].
    assert (E : filter Row.active (rows l) = []).
    { clear -Hin. induction Hin as [| x xs Hx _ IHx]; [reflexivity |].
      simpl. now rewrite Hx. }
    rewrite E. simpl. lia. }
  destruct (Opts.highlightLines opts); [| intros H; now inversion H; subst].
  destruct (match Opts.tracking opts with
            | Tracking.Sticky => _ | Tracking.Area => _ | Tracking.Other => _
            end) as [k |]; [| intros H; now inversion H; subst].
  destruct (Nat.ltb_spec k (List.length (rows l))); [| discriminate].
  intros H'. inversion H'; subst.
  destruct (update_at_set_active k (rows l) Hin H) as [A B].
  split; [exact A | lia].
Qed.

(** X17: highlighting touches nothing but the [active] field, and of one
    row at most: the highlighted rows, with the flag cleared, are the rows
    that were built. *)
Theorem highlight_flags_at_most_one_row
    (data : list (list jsval)) (idx : Z) (series : list Series.t)
    (l : Locals) (cursorValue : Z) (rows' : list Row.t) :
  buildRows' data idx series = Ok l ->
  highlight' cursorValue l = Ok rows' ->
  map unflag rows' = rows l /\
  (List.length (filter Row.active rows') <= 1)%nat.
Proof.
  intros Hb. apply highlight_effect.
  apply (buildRows_invariant SnapToValue Closest snap_truthy findDataIdx opts
           snapToValues interpolationValue _ _ _ _ Hb).
Qed.

(** X18: the closure a cursor update schedules holds the rows built for
    the cursor's index, possibly reordered by [opts.sort], with at most one
    of them flagged active, together with the loop's [sum]. *)
Theorem scheduled_closure_holds_the_built_rows (u : UPlot) (c : RenderClosure) :
  scheduled' u = Some c ->
  exists d k l,
    data u = Some d /\ idx (cursor u) = Some k /\
    buildRows' d k (series u) = Ok l /\
    Permutation (map unflag (c_rows c)) (rows l) /\
    (List.length (filter Row.active (c_rows c)) <= 1)%nat /\
    c_sum c = sum l.
Proof.
  unfold scheduled', scheduled.
  destruct (data u) as [d |]; [| discriminate].
  destruct (idx (cursor u)) as [k |]; [| discriminate].
  destruct (top (cursor u)) as [t |]; [| discriminate].
  destruct (negb (isChartInViewPort u)); [discriminate |].
  destruct (nth_error d 0) as [d0 |]; [| discriminate].
  destruct (buildRows _ _ _ _ _ _ _ d k (series u)) as [l | m] eqn:B;
    [| discriminate].
  destruct (rows l) as [| r rs] eqn:R; [discriminate |].
  destruct (highlight _ _ _ _ l) as [rows' | m] eqn:H; [| discriminate].
  intros E. inversion E; subst; clear E. simpl.
  exists d, k, l. repeat split; auto.
  - destruct (highlight_effect _ _ _
                (buildRows_invariant SnapToValue Closest snap_truthy findDataIdx
                   opts snapToValues interpolationValue _ _ _ _ B) H) as [A _].
    rewrite <- A.
    destruct (Opts.sort opts) as [cmp |]; [| reflexivity].
    apply Permutation_map, array_sort_perm.
  - destruct (highlight_effect _ _ _
                (buildRows_invariant SnapToValue Closest snap_truthy findDataIdx
                   opts snapToValues interpolationValue _ _ _ _ B) H) as [_ A].
    destruct (Opts.sort opts) as [cmp |]; [| exact A].
    pose proof (filter_active_perm _ _ (array_sort_perm cmp rows')) as P.
    now rewrite (Permutation_length P).
Qed.

(** X16: when [opts.sort] is a consistent comparator, the rows of the
    scheduled closure are in its order: no row comes before a row that the
    comparator places before it. *)
Theorem scheduled_rows_are_sorted
    (u : UPlot) (c : RenderClosure) (cmp : Row.t -> Row.t -> Z) :
  scheduled' u = Some c -> Opts.sort opts = Some cmp ->
  consistent_comparator cmp ->
  StronglySorted (fun a b => cmp a b <= 0) (c_rows c).
Proof.
  unfold scheduled', scheduled. intros H Hs [Ha Ht]. rewrite Hs in H.
  destruct (data u) as [d |]; [| discriminate].
  destruct (idx (cursor u)) as [k |]; [| discriminate].
  destruct (top (cursor u)) as [t |]; [| discriminate].
  destruct (negb (isChartInViewPort u)); [discriminate |].
  destruct (nth_error d 0) as [d0 |]; [| discriminate].
  destruct (buildRows _ _ _ _ _ _ _ d k (series u)) as [l | m]; [| discriminate].
  destruct (rows l) as [| r rs]; [discriminate |].
  destruct (highlight _ _ _ _ l) as [rows' | m]; [| discriminate].
  inversion H; subst; simpl.
  apply Sorted_StronglySorted; [intros a b c'; apply Ht |].
  apply array_sort_sorts. intros a b Hab. apply Ha in Hab. lia.
Qed.

(** X27: highlighting throws exactly when it is enabled and the selected
    index (from [findInRange] under Area, from [findSticky] under Sticky,
    [i - 1] otherwise) is not an index of [rows]; a [null] selection flags
    nothing. *)
Theorem highlight_throws_iff (cursorValue : Z) (l : Locals) :
  let activeIndex :=
    match Opts.tracking opts with
    | Tracking.Area => findInRange (rowYs l) cursorValue false
    | Tracking.Sticky => findSticky (rowYs l) cursorValue
    | Tracking.Other => Some (i l - 1)%nat
    end in
  ((exists m, highlight' cursorValue l = Raise m) <->
   Opts.highlightLines opts = true /\
   exists k, activeIndex = Some k /\ (List.length (rows l) <= k)%nat) /\
  (activeIndex = None -> highlight' cursorValue l = Ok (rows l)).
Proof.
  cbv zeta. unfold highlight', highlight.
  set (activeIndex := match Opts.tracking opts with
                      | Tracking.Sticky => _
                      | Tracking.Area => _
                      | Tracking.Other => _
                      end).
  split.
  - destruct (Opts.highlightLines opts).
    + destruct activeIndex as [k |].
      * destruct (Nat.ltb_spec k (List.length (rows l))).
        -- split; [intros [m E]; discriminate E |].
           intros [_ [k' [E Hk]]]. inversion E; subst. lia.
        -- split; [| intros _; eexists; reflexivity].
           intros _. split; [reflexivity |]. now exists k.
      * split; [intros [m E]; discriminate E |].
        intros [_ [k' [E _]]]. discriminate E.
    + split; [intros [m E]; discriminate E | intros [E _]; discriminate E].
  - intros ->. now destruct (Opts.highlightLines opts).
Qed.

Lemma rowLoop_rows_bound data idx rest :
  forall l l',
    rowLoop SnapToValue Closest snap_truthy findDataIdx opts snapToValues
      interpolationValue data idx rest l = Ok l' ->
    (List.length (rows l')
     <= List.length (rows l) + List.length (filter inTooltip rest))%nat.
Proof.
  induction rest as [| serie rest IH]; intros l l' H.
  - simpl in H. inversion H; subst. simpl. lia.
  - rewrite rowLoop_step in H.
    destruct (negb (Series.show serie)).
    + apply IH in H. simpl in *. destruct (inTooltip serie); simpl; lia.
    + destruct (nth_error data (i l)) as [data_i |]; [| discriminate].
      cbv zeta in H.
      destruct (skipped _ _ _ _ _ _ _ _ _) eqn:Hk.
      * apply IH in H. simpl in *. destruct (inTooltip serie); simpl; lia.
      * apply IH in H. simpl in H. rewrite length_app in H. simpl in H.
        unfold skipped in Hk. apply orb_false_iff in Hk. destruct Hk as [_ Hk].
        simpl in Hk. simpl. unfold inTooltip at 1.
        destruct (Series.showInTooltip serie) as [[|] |]; try discriminate;
          simpl; lia.
Qed.

(** X19: the rows never outnumber the line count handed to the renderer by
    more than one, and not at all when the first series (the x series) does
    not opt out of the tooltip. *)
Theorem rows_within_available_lines
    (data : list (list jsval)) (idx : Z) (series : list Series.t) (l : Locals) :
  buildRows' data idx series = Ok l ->
  Z.of_nat (List.length (rows l)) <= availableLines series + 1 /\
  (forall s0 rest, series = s0 :: rest -> inTooltip s0 = true ->
     Z.of_nat (List.length (rows l)) <= availableLines series).
Proof.
  intros H. unfold buildRows', buildRows in H.
  apply rowLoop_rows_bound in H. simpl in H.
  unfold availableLines. fold inTooltip.
  change (fun s : Series.t =>
            match Series.showInTooltip s with
            | Some false => false
            | _ => true
            end) with inTooltip.
  assert (G : forall s0 rest, series = s0 :: rest ->
            Z.of_nat (List.length (rows l)) + 1
            <= Z.of_nat (List.length (filter inTooltip series))
               + (if inTooltip s0 then 0 else 1)).
  { intros s0 rest ->. change (skipn 1 (s0 :: rest)) with rest in H.
    cbn [filter]. cbn [rows List.length] in H.
    destruct (inTooltip s0); cbn [List.length]; lia. }
  split.
  - destruct series as [| s0 rest]; [simpl in *; lia |].
    specialize (G s0 rest eq_refl). destruct (inTooltip s0); lia.
  - intros s0 rest E Hs. specialize (G s0 rest E). rewrite Hs in G. lia.
Qed.

End HighlightFacts.

Lemma highlight_flags_at_most_one_row_witness :
  exists l rows',
    sample_buildRows (defaults true) two_lines = Ok l /\
    highlight sample_findInRange sample_findSticky (defaults true) 12 l
      = Ok rows' /\
    map Row.active rows' = [true; false] /\
    map unflag rows' = rows l.
Proof.
  eexists. eexists. split; [reflexivity |]. split; [reflexivity |].
  split; [reflexivity |].
  apply (highlight_flags_at_most_one_row SnapPolicy SnapClosest (fun _ => true)
           sample_findDataIdx sample_findInRange sample_findSticky
           (defaults true) SnapUndefined VNull
           [xs; [VNum 5; VNum 7; VNum 9]; [VNum 1; VNum 3; VNum 4]] 1
           (series two_lines) _ 12 _ eq_refl eq_refl).
Defined.

Lemma scheduled_closure_holds_the_built_rows_witness :
  exists c d k l,
    scheduled SnapPolicy SnapClosest (fun _ => true) sample_findDataIdx
      sample_findInRange sample_findSticky (defaults true) SnapUndefined VNull
      one_opted_out = Some c /\
    data one_opted_out = Some d /\ idx (cursor one_opted_out) = Some k /\
    Permutation (map unflag (c_rows c)) (rows l) /\ c_sum c = 10.
Proof.
  eexists.
  destruct (scheduled_closure_holds_the_built_rows SnapPolicy SnapClosest
              (fun _ => true) sample_findDataIdx sample_findInRange
              sample_findSticky (defaults true) SnapUndefined VNull
              one_opted_out _ eq_refl) as (d & k & l & D & K & B & P & _ & S).
  exists d, k, l. split; [reflexivity |].
  split; [exact D | split; [exact K | split; [exact P |]]].
  reflexivity.
Defined.

Lemma rows_within_available_lines_witness :
  exists l, sample_buildRows (defaults true) two_lines = Ok l /\
            Z.of_nat (List.length (rows l)) <= availableLines (series two_lines).
Proof.
  eexists. split; [reflexivity |].
  destruct (rows_within_available_lines SnapPolicy SnapClosest (fun _ => true)
              sample_findDataIdx (defaults true) SnapUndefined VNull
              [xs; [VNum 5; VNum 7; VNum 9]; [VNum 1; VNum 3; VNum 4]] 1
              (series two_lines) _ eq_refl) as [_ H].
  apply (H _ _ eq_refl eq_refl).
Defined.

(** ** The default value formatter *)

Section FormatterFacts.
Variable toFixed : Z -> Z -> string.
Variable nullValues : option (string -> option string).
Variable options_precision : option Z.

Let format := defaultTooltipValueFormatter toFixed nullValues options_precision.

(** X20: the default formatter throws exactly on [undefined], and on a
    number when the digit count in force (the call's precision, else
    [options.precision], else 2) is outside 0..100; [null] and labels are
    formatted whatever the precision. *)
Theorem defaultTooltipValueFormatter_throws_iff (n : jsval) (precision : option Z) :
  let digits :=
    match precision with
    | Some p => p
    | None => match options_precision with Some p => p | None => 2 end
    end in
  ((exists m, format n precision = Raise m) <->
   n = VUndefined \/ (is_number n = true /\ (digits < 0 \/ 100 < digits))) /\
  (is_number n = false -> forall p, format n p = format n precision).
Proof.
  cbv zeta. unfold format, defaultTooltipValueFormatter, callToFixed.
  set (digits := match precision with Some p => p | None => _ end).
  split.
  - destruct n as [| | z | | s]; simpl.
    + split; [now left | intros _; eexists; reflexivity].
    + split; [intros [m H]; discriminate | intros [H | [H _]]; discriminate].
    + destruct (Z.leb_spec 0 digits) as [H0 | H0];
        destruct (Z.leb_spec digits 100) as [H1 | H1]; simpl; split;
        try (intros [m E]; discriminate E);
        try (intros [E | [_ E]]; [discriminate E | lia]);
        try (intros _; right; split; [reflexivity | lia]);
        try (intros _; eexists; reflexivity).
    + destruct (Z.leb_spec 0 digits) as [H0 | H0];
        destruct (Z.leb_spec digits 100) as [H1 | H1]; simpl; split;
        try (intros [m E]; discriminate E);
        try (intros [E | [_ E]]; [discriminate E | lia]);
        try (intros _; right; split; [reflexivity | lia]);
        try (intros _; eexists; reflexivity).
    + split; [| intros [H | [H _]]; discriminate].
      intros [m H]. destruct nullValues as [own |]; [destruct (own s) |];
        discriminate.
  - destruct n; simpl; intros H p; try discriminate; reflexivity.
Qed.

End FormatterFacts.

(** ** The default renderer *)

Lemma sort_insert_last cmp x l :
  Forall (fun y => cmp y x <= 0) l -> sort_insert cmp x l = l ++ [x].
Proof.
  induction 1 as [| y l Hy _ IH]; simpl; [reflexivity |].
  destruct (Z.gtb_spec (cmp y x) 0); [lia | now rewrite IH].
Qed.

Lemma StronglySorted_app_cons (R : Row.t -> Row.t -> Prop) acc x l :
  StronglySorted R (acc ++ x :: l) -> Forall (fun y => R y x) acc.
Proof.
  induction acc as [| a acc IH]; simpl; intros H; [constructor |].
  inversion H as [| ? ? Hs Hf]; subst. constructor.
  - rewrite Forall_forall in Hf. apply Hf. apply in_or_app. right. now left.
  - now apply IH.
Qed.

(** Sorting what is in order already changes nothing. *)
Lemma array_sort_sorted_id cmp l :
  StronglySorted (fun a b => cmp a b <= 0) l -> array_sort cmp l = l.
Proof.
  unfold array_sort. intros H.
  assert (G : forall rest acc,
            StronglySorted (fun a b => cmp a b <= 0) (acc ++ rest) ->
            fold_left (fun sorted x => sort_insert cmp x sorted) rest acc
            = acc ++ rest).
  { induction rest as [| x rest IH]; intros acc Hs; simpl.
    - now rewrite app_nil_r.
    - rewrite (sort_insert_last cmp x acc).
      + rewrite IH; rewrite <- app_assoc; [reflexivity | exact Hs].
      + apply (StronglySorted_app_cons _ _ _ _ Hs). }
  apply (G l []). exact H.
Qed.

Lemma StronglySorted_firstn (R : Row.t -> Row.t -> Prop) n l :
  StronglySorted R l -> StronglySorted R (firstn n l).
Proof.
  intros H. revert n. induction H as [| a l Hs IH Hf]; intros [| n]; simpl;
    try constructor.
  - apply IH.
  - rewrite Forall_forall in *. intros y Hy. apply Hf.
    revert Hy. clear. revert n. induction l as [| b l IHl]; intros [| n]; simpl;
      try tauto.
    intros [-> | H]; [now left | right; now apply (IHl n)].
Qed.

(** X21: under a consistent comparator the default renderer's own sort
    does not reorder the rows [setCursor] has sorted with it already: it
    prints the first [maxLines] of them in the order it received them. *)
Theorem renderTooltip_keeps_sorted_order
    (toFixed : Z -> Z -> string) (cmp : Row.t -> Row.t -> Z)
    (rows : list Row.t) (maxLines : Z) :
  consistent_comparator cmp ->
  renderTooltip toFixed (array_sort cmp rows) maxLines (Some cmp) =
  String.concat newline
    (map (tooltipItem toFixed) (slice0 (array_sort cmp rows) maxLines)).
Proof.
  intros [Ha Ht]. unfold renderTooltip.
  rewrite array_sort_sorted_id; [reflexivity |].
  unfold slice0. apply StronglySorted_firstn.
  apply Sorted_StronglySorted.
  - intros a b c. apply Ht.
  - apply array_sort_sorts. intros a b Hab. apply Ha in Hab. lia.
Qed.

(** ** Focus by hovering a row *)

Lemma find_first (A : Type) (f : A -> bool) (l : list A) (x : A) :
  find f l = Some x <->
  exists pre post, l = pre ++ x :: post /\ f x = true /\
                   Forall (fun y => f y = false) pre.
Proof.
  split.
  - induction l as [| a l IH]; simpl; [discriminate |].
    destruct (f a) eqn:Fa.
    + intros E. inversion E; subst. exists [], l. now repeat split.
    + intros E. destruct (IH E) as (pre & post & -> & Fx & Hp).
      exists (a :: pre), post. repeat split; auto.
  - intros (pre & post & -> & Fx & Hp).
    induction Hp as [| y pre Hy _ IH]; simpl; [now rewrite Fx | now rewrite Hy].
Qed.

(** X22: [checkFocus] focuses a series exactly when the pointer is on a
    tooltip item inside the overlay whose series name is not empty and
    names a series; of several series with that name it is the first.  In
    every other case it clears the focus. *)
Theorem checkFocus_focuses_first_named_series
    (series : list Series.t) (target : option FocusTarget) (id : string) :
  checkFocus series target = Some id <->
  exists t n pre s post,
    target = Some t /\ inOverlay t = true /\ isTooltipItem t = true /\
    seriesName t = Some n /\ n <> ""%string /\
    series = pre ++ s :: post /\ Series.name s = n /\ Series.id s = id /\
    Forall (fun s' => Series.name s' <> n) pre.
Proof.
  unfold checkFocus. split.
  - destruct target as [t |]; [| discriminate].
    destruct (inOverlay t) eqn:Ho; [| discriminate].
    destruct (isTooltipItem t) eqn:Hi; [| discriminate]. simpl.
    destruct (seriesName t) as [n |] eqn:Hn; [| discriminate].
    destruct (String.eqb_spec n ""); [discriminate |].
    destruct (find _ series) as [s |] eqn:F; [| discriminate].
    intros E. inversion E; subst.
    apply find_first in F. destruct F as (pre & post & -> & Fx & Hp).
    exists t, n, pre, s, post. repeat split; auto.
    + now apply String.eqb_eq.
    + eapply Forall_impl; [| exact Hp]. intros s' H.
      now apply String.eqb_neq.
  - intros (t & n & pre & s & post & -> & Ho & Hi & Hn & Hne & -> & Hs & Hid & Hp).
    rewrite Ho, Hi, Hn. simpl.
    destruct (String.eqb_spec n ""); [contradiction |].
    assert (F : find (fun s0 => String.eqb (Series.name s0) n) (pre ++ s :: post)
                = Some s).
    { apply find_first. exists pre, post. repeat split.
      - now apply String.eqb_eq.
      - eapply Forall_impl; [| exact Hp]. intros s' H. now apply String.eqb_neq. }
    now rewrite F, Hid.
Qed.

Lemma renderTooltip_keeps_sorted_order_witness :
  let by_value (a b : Row.t) :=
    or_zero (Row.originalValue a) - or_zero (Row.originalValue b) in
  let row (n : string) (v : Z) := Row.mk n (VNum v) "-" (VNum v) "#000" false None in
  renderTooltip sample_toFixed
    (array_sort by_value [row "c"%string 9; row "a"%string 2; row "b"%string 5])
    2 (Some by_value)
  = renderTooltip sample_toFixed [row "a"%string 2; row "b"%string 5] 2 None.
Proof.
  cbv zeta.
  rewrite renderTooltip_keeps_sorted_order; [reflexivity |].
  split; [intros a b; split; intros |]; intros; lia.
Defined.

(** * The plot lines plugin *)

Module PlotLinesFacts.
Import PlotLines.

(** X23: the hook the plot lines are drawn in.  Without [drawOrder], and
    with the three layers listed with plotLines last, it is [draw]; for
    axes, plotLines, series it is [drawAxes]; for series, plotLines, axes it
    is [drawSeries]; every other [drawOrder] (plotLines first, a layer
    missing or repeated, an empty list) gives [drawClear]. *)
Theorem hook_by_draw_order (drawOrder : option (list DrawKey)) :
  hook drawOrder =
  match drawOrder with
  | None => draw
  | Some [Series; Axes; PlotLinesKey] | Some [Axes; Series; PlotLinesKey] => draw
  | Some [Axes; PlotLinesKey; Series] => drawAxes
  | Some [Series; PlotLinesKey; Axes] => drawSeries
  | Some _ => drawClear
  end.
Proof.
  destruct drawOrder as [order |]; [| reflexivity].
  destruct order as [| a order]; [reflexivity |].
  destruct order as [| b order]; [now destruct a |].
  destruct order as [| c order]; [now destruct a, b |].
  destruct order as [| d order]; [now destruct a, b, c |].
  destruct order; destruct a, b, c, d; reflexivity.
Qed.

Lemma add_appends ps s lines :
  add ps s lines =
  lines ++ map (fun p => if given s then withScale s p else p) ps.
Proof.
  unfold add. revert lines.
  induction ps as [| p ps IH]; intros lines; simpl.
  - now rewrite app_nil_r.
  - rewrite IH, <- app_assoc. reflexivity.
Qed.

(** X24: [add] with a scale followed by [clear] of that scale restores the
    plot lines, provided none of them was on that scale before and every
    added line has no [scale] key of its own or is on that scale. *)
Theorem clear_undoes_add
    (lines ps : list PlotLineConfig) (s : string) :
  s <> ""%string ->
  Forall (fun p => scale p <> Some s) lines ->
  Forall (fun p => scaleKey p = NoKey \/ scale p = Some s) ps ->
  clear (Some s) (add ps (Some s) lines) = lines.
Proof.
  intros Hs Hl Hp. rewrite add_appends. unfold clear, given, nonEmpty.
  destruct (String.eqb_spec s ""); [contradiction |]. simpl.
  rewrite filter_app.
  assert (A : filter (fun p => negb match scale p with
                                    | Some a => String.eqb a s
                                    | None => false
                                    end) lines = lines).
  { induction Hl as [| p lines Hp' _ IH]; simpl; [reflexivity |].
    rewrite IH. destruct (scale p) as [a |]; simpl; [| reflexivity].
    destruct (String.eqb_spec a s); [subst; now elim Hp' | reflexivity]. }
  assert (B : filter (fun p => negb match scale p with
                                    | Some a => String.eqb a s
                                    | None => false
                                    end) (map (withScale (Some s)) ps) = []).
  { induction Hp as [| p ps Hp' _ IH]; simpl; [reflexivity |].
    rewrite IH. unfold withScale.
    destruct Hp' as [E | E].
    - rewrite E. simpl. now rewrite String.eqb_refl.
    - unfold scale in E. destruct (scaleKey p) eqn:K; try discriminate E.
      unfold scale. rewrite K. inversion E; subst. simpl.
      now rewrite String.eqb_refl. }
  set (keep := fun p => negb match scale p with
                             | Some a => String.eqb a s
                             | None => false
                             end) in *.
  change (filter keep lines ++ filter keep (map (withScale (Some s)) ps) = lines).
  rewrite A, B. apply app_nil_r.
Qed.

Section RenderFacts.
Variable DEFAULT_X_SCALE : string.
Variable DEFAULT_CANVAS_PIXEL_RATIO : number.
Variable valToPos : option number -> string -> number.
Variable posToVal : number -> string -> number.
Variable parse : string -> string.

Let renderPlotLine' :=
  renderPlotLine DEFAULT_X_SCALE DEFAULT_CANVAS_PIXEL_RATIO valToPos posToVal parse.
Let renderPlotLines' :=
  renderPlotLines DEFAULT_X_SCALE DEFAULT_CANVAS_PIXEL_RATIO valToPos posToVal
    parse.
Let undrawn' := undrawn DEFAULT_X_SCALE valToPos.

(** X25: a plot line without a scale (absent or empty) is never drawn: the
    calls made on the canvas are those for the lines that have one. *)
Theorem renderPlotLines_skips_lines_without_scale
    (u : Chart) (plotLines : list PlotLineConfig) :
  renderPlotLines' u plotLines =
  renderPlotLines' u (filter (fun p => given (scale p)) plotLines).
Proof.
  unfold renderPlotLines', renderPlotLines.
  induction plotLines as [| p ps IH]; simpl; [reflexivity |].
  rewrite IH. unfold given.
  destruct (scale p) as [s |] eqn:E; simpl.
  - destruct (nonEmpty s) eqn:N; simpl; [reflexivity |].
    unfold renderPlotLine. now rewrite E, N.
  - unfold renderPlotLine. now rewrite E.
Qed.

Lemma count_app c a b : (count c (a ++ b) = count c a + count c b)%nat.
Proof. unfold count. now rewrite filter_app, length_app. Qed.

Lemma renderPlotLine_balance u p :
  count save (renderPlotLine' u p) =
  (count restore (renderPlotLine' u p) + (if undrawn' u p then 1 else 0))%nat.
Proof.
  unfold renderPlotLine', renderPlotLine, undrawn', undrawn.
  destruct (scale p) as [s |]; [| reflexivity].
  destruct (nonEmpty s); simpl; [| now destruct (value p)].
  destruct (value p) as [v | v0 v1]; simpl.
  - destruct (String.eqb s DEFAULT_X_SCALE); simpl.
    + destruct (beyondData _ _ _ _); [reflexivity |].
      destruct (dash p); reflexivity.
    + destruct (dash p); reflexivity.
  - destruct (String.eqb s DEFAULT_X_SCALE); reflexivity.
Qed.

(** X26: [renderPlotLines] saves the canvas state once per line with a
    scale and restores it once per line it draws: a line on the x scale
    lying more than 5 pixels beyond the last data point is left undrawn
    after [save()] and [beginPath()], without [restore()], so the saves
    exceed the restores by the number of such lines. *)
Theorem renderPlotLines_save_restore
    (u : Chart) (plotLines : list PlotLineConfig) :
  count save (renderPlotLines' u plotLines) =
  (count restore (renderPlotLines' u plotLines)
   + List.length (filter (undrawn' u) plotLines))%nat.
Proof.
  unfold renderPlotLines', renderPlotLines.
  induction plotLines as [| p ps IH]; simpl; [reflexivity |].
  rewrite !count_app, IH.
  pose proof (renderPlotLine_balance u p) as B.
  unfold renderPlotLine' in B. rewrite B.
  destruct (undrawn' u p); simpl; lia.
Qed.

End RenderFacts.

End PlotLinesFacts.

Lemma clear_undoes_add_witness :
  let band := PlotLines.mkPlotLine (PlotLines.Scale "y")
                (PlotLines.Band (PlotLines.Num 1) PlotLines.Infinity)
                "red" None None in
  let line := PlotLines.mkPlotLine PlotLines.NoKey
                (PlotLines.Line (PlotLines.Num 3)) "blue" None None in
  PlotLines.get (PlotLines.add [line; line] (Some "x"%string) [band])
  = [band; PlotLines.withScale (Some "x"%string) line;
     PlotLines.withScale (Some "x"%string) line] /\
  PlotLines.clear (Some "x"%string)
    (PlotLines.add [line; line] (Some "x"%string) [band]) = [band].
Proof.
  split; [reflexivity |].
  apply PlotLinesFacts.clear_undoes_add.
  - discriminate.
  - repeat constructor. discriminate.
  - repeat constructor; now left.
Defined.

(** A line that carries its own [scale: undefined] keeps it through
    [add], so [clear] of the added scale leaves it in place. *)
Example own_undefined_scale_survives_clear :
  let line := PlotLines.mkPlotLine PlotLines.Undefined
                (PlotLines.Line (PlotLines.Num 3)) "blue" None None in
  PlotLines.clear (Some "x"%string) (PlotLines.add [line] (Some "x"%string) [])
  = [line].
Proof. reflexivity. Qed.

(** ** Exceptions, holder layers and the recorded coordinate *)

Section LateFacts.
Variable SnapToValue : Type.
Variable Closest : SnapToValue.
Variable snap_truthy : SnapToValue -> bool.
Variable findDataIdx :
  list jsval -> Series.t -> Z -> option SnapToValue -> jsval -> Z.
Variable findInRange : list jsval -> Z -> bool -> option nat.
Variable findSticky : list jsval -> Z -> option nat.
Variable opts : Opts.t.
Variable snapToValues : SnapOption SnapToValue.
Variable interpolationValue : jsval.

Let buildRows' :=
  buildRows SnapToValue Closest snap_truthy findDataIdx opts snapToValues
    interpolationValue.
Let highlight' := highlight findInRange findSticky opts.
Let setCursor' :=
  setCursor SnapToValue Closest snap_truthy findDataIdx findInRange findSticky
    opts snapToValues interpolationValue.
Let step' :=
  step SnapToValue Closest snap_truthy findDataIdx findInRange findSticky
    opts snapToValues interpolationValue.
Let run' :=
  run SnapToValue Closest snap_truthy findDataIdx findInRange findSticky
    opts snapToValues interpolationValue.

(** X28: when highlighting throws, the update has shown the tooltip
    already: it ends with the exception, the tooltip visible, nothing
    rendered and the render closure of the previous update still in
    place. *)
Theorem setCursor_throws_after_show
    (u : UPlot) (w : Tooltip) (d : list (list jsval)) (k t : Z)
    (d0 : list jsval) (l : Locals) (m : string) :
  data u = Some d -> idx (cursor u) = Some k -> top (cursor u) = Some t ->
  isChartInViewPort u = true -> nth_error d 0 = Some d0 ->
  buildRows' d k (series u) = Ok l -> rows l <> [] ->
  highlight' (cursorValue u) l = Raise m ->
  let w' := fst (setCursor' u w) in
  snd (setCursor' u w) = Throws m /\
  State.visible (state w') = true /\ display w' = DisplayBlock /\
  renders w' = renders w /\
  renderTooltipCloses w' = renderTooltipCloses w.
Proof.
  intros Hd Hk Ht Hv H0 Hb Hr Hh.
  assert (E : setCursor' u w = (show opts (offPlotHide opts u w), Throws m)).
  { unfold setCursor', setCursor. fold (offPlotHide opts u w).
    rewrite Hd, Hk, Ht, Hv, H0. simpl negb. cbv iota.
    unfold buildRows' in Hb. rewrite Hb.
    destruct (rows l) as [| r rs]; [now elim Hr |].
    unfold highlight' in Hh. rewrite Hh. reflexivity. }
  cbv zeta. rewrite E. simpl fst. simpl snd.
  split; [reflexivity |].
  rewrite show_state. split; [reflexivity |].
  split.
  - unfold show, emit.
    destruct (State.visible _), (Opts.onStateChange opts); reflexivity.
  - destruct (show_renders opts (offPlotHide opts u w)) as [-> ->].
    unfold offPlotHide. destruct (_ && _); [| now split].
    destruct (hide_renders opts w) as [-> ->]. now split.
Qed.

(** What the elementary updates leave alone. *)
Lemma through_ui_frame w w' :
  through_ui opts w w' ->
  State.pinned (state w') = State.pinned (state w) /\
  State.clickStartedX (state w') = State.clickStartedX (state w) /\
  pointsHolders w' = pointsHolders w.
Proof.
  induction 1 as [| w' _ IH | w' _ IH | w' c _ IH | w' _ IH].
  - now repeat split.
  - destruct IH as (A & B & C). rewrite show_state.
    unfold show, emit.
    destruct (State.visible (state w')), (Opts.onStateChange opts);
      now repeat split.
  - destruct IH as (A & B & C). destruct (hide_state opts w') as [-> _].
    unfold hide, emit.
    destruct (State.visible (state w')), (Opts.onStateChange opts);
      now repeat split.
  - exact IH.
  - destruct IH as (A & B & C). rewrite callRenderTooltipCloses_state.
    unfold callRenderTooltipCloses, emit.
    destruct (renderTooltipCloses w'), (Opts.onStateChange opts);
      now repeat split.
Qed.

Lemma pin_frame b w :
  State.clickStartedX (state (pin opts b w)) = State.clickStartedX (state w) /\
  pointsHolders (pin opts b w)
  = (if b then S (pointsHolders w) else Nat.pred (pointsHolders w)).
Proof.
  rewrite pin_state. unfold pin, emit.
  destruct b, (Opts.onStateChange opts); now split.
Qed.

Lemma onMouseUp_through x w :
  onMouseUp opts x w = w \/
  through_ui opts (pin opts (negb (State.pinned (state w))) w)
    (onMouseUp opts x w).
Proof.
  unfold onMouseUp. destruct (_ && _); [right | now left].
  apply ui_call, ui_show, ui_none.
Qed.

Lemma holder_through_ui w w' :
  through_ui opts w w' -> holder_when_pinned w -> holder_when_pinned w'.
Proof.
  intros T H. destruct (through_ui_frame _ _ T) as (P & _ & Hh).
  unfold holder_when_pinned. now rewrite P, Hh.
Qed.

Lemma holder_pin b w : holder_when_pinned (pin opts b w).
Proof.
  unfold holder_when_pinned. rewrite pin_state.
  destruct (pin_frame b w) as [_ ->]. destruct b; simpl; [lia | discriminate].
Qed.

Lemma holder_step e w :
  holder_when_pinned w -> holder_when_pinned (fst (step' e w)).
Proof.
  intros H. destruct e; simpl; auto.
  - apply (holder_through_ui w); [apply ui_show, ui_none | exact H].
  - apply (holder_through_ui w); [apply ui_hide, ui_none | exact H].
  - apply holder_pin.
  - destruct (overListeners w); [| exact H].
    destruct w as [[p c v m] d pc a h dl ol cl r lg]. exact H.
  - destruct (overListeners w); [| exact H].
    destruct (onMouseUp_through clientX w) as [-> | T]; [exact H |].
    apply (holder_through_ui _ _ T), holder_pin.
  - destruct (overListeners w); [| exact H].
    apply (holder_through_ui w); [apply ui_show, ui_none | exact H].
  - destruct (overListeners w); [| exact H]. unfold onMouseLeave.
    destruct (negb _); [| exact H].
    apply (holder_through_ui w); [apply ui_hide, ui_none | exact H].
  - destruct (documentListeners w); [| exact H]. unfold detectClickOutside.
    destruct (isElement target); [| exact H].
    destruct (_ && _); [| exact H].
    apply (holder_through_ui (pin opts false w));
      [apply ui_hide, ui_none | apply holder_pin].
  - apply (holder_through_ui w); [| exact H].
    apply (setCursor_through_ui SnapToValue Closest snap_truthy findDataIdx
             findInRange findSticky opts snapToValues interpolationValue).
  - unfold holder_when_pinned in *. rewrite destroy_state.
    unfold destroy, emit. destruct (Opts.onStateChange opts); exact H.
Qed.

(** X29: in every state reached from the created tooltip, a pinned
    tooltip has at least one holder layer for the cloned markers. *)
Theorem pinned_tooltip_has_a_holder (events : list Event) :
  let w := run' events (created opts) in
  State.pinned (state w) = true -> (1 <= pointsHolders w)%nat.
Proof.
  cbv zeta.
  assert (G : forall w, holder_when_pinned w -> holder_when_pinned (run' events w)).
  { induction events as [| e events IH]; intros w H; [exact H |].
    simpl. apply IH. now apply holder_step. }
  apply G. unfold holder_when_pinned, created, emit.
  destruct (Opts.onStateChange opts); simpl; discriminate.
Qed.

(** X30: only a pointer-down on the chart changes the recorded
    coordinate: every other event, the pin a click leads to included,
    leaves it as it is, and a pointer-down the tooltip listens to records
    its own. *)
Theorem recorded_coordinate_changes_on_pointer_down_only (e : Event) (w : Tooltip) :
  let w' := fst (step' e w) in
  match e with
  | MouseDown clientX =>
      State.clickStartedX (state w') =
      if overListeners w then Some clientX else State.clickStartedX (state w)
  | _ => State.clickStartedX (state w') = State.clickStartedX (state w)
  end.
Proof.
  cbv zeta. destruct e; simpl; auto.
  - now rewrite show_state.
  - now destruct (hide_state opts w) as [-> _].
  - now rewrite pin_state.
  - now destruct (overListeners w).
  - destruct (overListeners w); [| reflexivity].
    rewrite onMouseUp_state. now destruct (_ && _).
  - destruct (overListeners w); [| reflexivity].
    unfold onMouseEnter. now rewrite show_state.
  - destruct (overListeners w); [| reflexivity]. unfold onMouseLeave.
    destruct (negb _); [| reflexivity]. now destruct (hide_state opts w) as [-> _].
  - destruct (documentListeners w); [| reflexivity]. unfold detectClickOutside.
    destruct (isElement target); [| reflexivity].
    destruct (_ && _); [| reflexivity].
    destruct (hide_state opts (pin opts false w)) as [-> _].
    now rewrite pin_state.
  - apply (through_ui_frame w).
    apply (setCursor_through_ui SnapToValue Closest snap_truthy findDataIdx
             findInRange findSticky opts snapToValues interpolationValue).
  - now rewrite destroy_state.
Qed.

End LateFacts.

Lemma scheduled_rows_are_sorted_witness :
  let by_value (a b : Row.t) :=
    or_zero (Row.originalValue a) - or_zero (Row.originalValue b) in
  let o := Opts.mk Tracking.Sticky true true true true sample_value
             (Some by_value) false true in
  exists c,
    scheduled SnapPolicy SnapClosest (fun _ => true) sample_findDataIdx
      sample_findInRange sample_findSticky o SnapUndefined VNull two_lines
    = Some c /\
    map Row.name (c_rows c) = ["b"; "a"]%string /\
    StronglySorted (fun a b => by_value a b <= 0) (c_rows c).
Proof.
  cbv zeta.
  destruct (scheduled SnapPolicy SnapClosest (fun _ => true) sample_findDataIdx
              sample_findInRange sample_findSticky _ SnapUndefined VNull
              two_lines) as [c |] eqn:E; [| vm_compute in E; discriminate E].
  exists c. split; [reflexivity |]. split.
  - vm_compute in E. inversion E. reflexivity.
  - apply (scheduled_rows_are_sorted SnapPolicy SnapClosest (fun _ => true)
             sample_findDataIdx sample_findInRange sample_findSticky _
             SnapUndefined VNull two_lines c _ E eq_refl).
    split; [intros a b; split; intros |]; intros; lia.
Defined.

Lemma setCursor_throws_after_show_witness :
  let o := with_tracking Tracking.Other (defaults true) in
  let w' := fst (sample_setCursor o two_lines (created o)) in
  State.visible (state (created o)) = false /\
  State.visible (state w') = true /\ renders w' = [].
Proof.
  cbv zeta. split; [reflexivity |].
  assert (B : exists l, sample_buildRows
                          (with_tracking Tracking.Other (defaults true))
                          two_lines = Ok l) by (eexists; reflexivity).
  destruct B as [l B].
  assert (R : rows l <> []).
  { vm_compute in B. inversion B; subst. discriminate. }
  assert (H : highlight sample_findInRange sample_findSticky
                (with_tracking Tracking.Other (defaults true))
                (cursorValue two_lines) l
              = Raise "TypeError: rows[activeIndex] is undefined").
  { vm_compute in B. inversion B; subst. reflexivity. }
  destruct (setCursor_throws_after_show SnapPolicy SnapClosest (fun _ => true)
              sample_findDataIdx sample_findInRange sample_findSticky
              (with_tracking Tracking.Other (defaults true)) SnapUndefined VNull
              two_lines (created (with_tracking Tracking.Other (defaults true)))
              _ 1 30 xs l _ eq_refl eq_refl eq_refl eq_refl eq_refl B R H)
    as (_ & V & _ & Rn & _).
  split; [exact V | exact Rn].
Defined.

Lemma pinned_tooltip_has_a_holder_witness :
  State.pinned (state pinned_tooltip) = true /\
  (1 <= pointsHolders pinned_tooltip)%nat.
Proof.
  split; [reflexivity |].
  apply (pinned_tooltip_has_a_holder SnapPolicy SnapClosest (fun _ => true)
           sample_findDataIdx sample_findInRange sample_findSticky
           (defaults true) SnapUndefined VNull
           [SetCursor two_lines; MouseDown 5; MouseUp 5]).
  reflexivity.
Defined.
